(** * Image -> Desmos equations: the vectorisation core of [main.py]

    A shallow embedding of [bezier_to_equations] and [image_to_equations]
    together with the part of Python's number model they rely on
    (unbounded ints, binary64 floats, [str] of an int, [repr] of a float),
    followed by the properties of the equation text they emit.

    The OpenCV calls ([cvtColor], [GaussianBlur], [Canny], [findContours],
    [arcLength], [approxPolyDP]) are library code; they are parameters of
    the pipeline section. *)

From Stdlib Require Import ZArith QArith Qround Qpower List String Ascii Bool Lia.
From Stdlib Require Import SpecFloat DecimalString DecimalZ DecimalPos.
Import ListNotations.

Local Open Scope Z_scope.

(* ===================================================================== *)
(** * Python numbers *)
(* ===================================================================== *)

Module PyNum.

(** A Python [float] is an IEEE-754 binary64 value. *)
Definition prec : Z := 53.
Definition emax : Z := 1024.
Definition float : Type := spec_float.

(** [float(n)] for an int [n]: the nearest double, ties to even.  CPython
    raises [OverflowError] past the double range; the ints converted by
    this program are pixel coordinates of an int32 array and sums of an
    array dimension with them, which stay far below it. *)
Definition float_of_int (n : Z) : float :=
  binary_normalize prec emax n 0 false.

Definition fsub (a b : float) : float := SFsub prec emax a b.
Definition fmul (a b : float) : float := SFmul prec emax a b.
Definition fdiv (a b : float) : float := SFdiv prec emax a b.

(** A dynamically typed numeric value: the program passes ints and floats
    through the same parameters. *)
Inductive pynum : Type :=
| PyInt (n : Z)
| PyFloat (f : float).

(** [float(v)] *)
Definition py_float (v : pynum) : float :=
  match v with
  | PyInt n => float_of_int n
  | PyFloat f => f
  end.

(** [a - b]: int arithmetic on two ints, float arithmetic otherwise. *)
Definition py_sub (a b : pynum) : pynum :=
  match a, b with
  | PyInt x, PyInt y => PyInt (x - y)
  | _, _ => PyFloat (fsub (py_float a) (py_float b))
  end.

(** The exact value of a finite float. *)
Definition float_value (x : float) : option Q :=
  match x with
  | S754_zero _ => Some 0%Q
  | S754_finite s m e =>
      Some (inject_Z (if s then Zneg m else Zpos m) * Qpower 2 e)%Q
  | S754_infinity _ | S754_nan => None
  end.

(** [n / 3.0] for an int [n]. *)
Definition three : float := float_of_int 3.
Definition div3 (n : Z) : float := fdiv (float_of_int n) three.

(** The float literal [0.002]: the double nearest to 2/1000. *)
Definition lit_0_002 : float := fdiv (float_of_int 2) (float_of_int 1000).

End PyNum.

(* ===================================================================== *)
(** * Python text of numbers *)
(* ===================================================================== *)

Module PyStr.
Import PyNum.
Local Open Scope string_scope.
Local Open Scope Z_scope.

(** [str(n)] for an int: decimal digits, a leading [-] when negative. *)
Definition str_int (n : Z) : string :=
  NilZero.string_of_int (Z.to_int n).

(** ** [repr] of a float

    CPython prints the shortest digit string that reads back as the same
    double (the closest to it among the shortest), in positional notation
    when [1e-4 <= |x| < 1e16] and in exponent notation otherwise, and adds
    [.0] to a positional result without a fractional part. *)

(** The value [m * 2^e]. *)
Definition QofFloat (m : positive) (e : Z) : Q :=
  (inject_Z (Zpos m) * Qpower 2 e)%Q.

(** The reals that round to [m * 2^e]: up to half the gap to either
    neighbour.  The gap below is half as wide when [m] is the smallest
    normal mantissa. *)
Definition half_gap_up (e : Z) : Q := Qpower 2 (e - 1).
Definition half_gap_down (m : positive) (e : Z) : Q :=
  if (Zpos m =? 2 ^ (prec - 1)) && (3 - emax - prec <? e)
  then Qpower 2 (e - 2) else Qpower 2 (e - 1).

Definition rounds_to (m : positive) (e : Z) (c : Q) : bool :=
  let v := QofFloat m e in
  let lo := (v - half_gap_down m e)%Q in
  let hi := (v + half_gap_up e)%Q in
  if Z.even (Zpos m)
  then Qle_bool lo c && Qle_bool c hi
  else negb (Qle_bool c lo) && negb (Qle_bool hi c).

(** Number of decimal digits of a positive integer. *)
Definition ndigits (p : positive) : Z :=
  Z.of_nat (Decimal.nb_digits (Pos.to_uint p)).

Definition pow10 (k : Z) : Q := Qpower 10 k.

(** The decimal point position [p] of a positive rational [n/d]:
    [10^(p-1) <= n/d < 10^p]. *)
Definition decpt_of (v : Q) : Z :=
  match Qnum v with
  | Zpos n =>
      let p := ndigits n - ndigits (Qden v) in
      if Qle_bool (pow10 p) v then p + 1 else p
  | _ => 0
  end.

(** The candidates with [n] significant digits around [v]: the result is
    the integer [q] of the chosen candidate [q * 10^(p-n)], if one of the
    two rounds to the float; the closer one when both do (a binary value
    is never half-way between two such candidates that both round to
    it). *)
Definition candidate (m : positive) (e : Z) (p n : Z) : option Z :=
  let v := QofFloat m e in
  let unit := pow10 (p - n) in
  let q_lo := Qfloor (v / unit)%Q in
  let q_hi := q_lo + 1 in
  let c_lo := (inject_Z q_lo * unit)%Q in
  let c_hi := (inject_Z q_hi * unit)%Q in
  match rounds_to m e c_lo, rounds_to m e c_hi with
  | true, true =>
      match Qcompare (v - c_lo)%Q (c_hi - v)%Q with
      | Lt => Some q_lo
      | Gt => Some q_hi
      | Eq => Some (if Z.even q_lo then q_lo else q_hi)
      end
  | true, false => Some q_lo
  | false, true => Some q_hi
  | false, false => None
  end.

(** Try 1, 2, ... digits; 17 always suffice for a double.  The result is
    the integer [q] and the exponent [k] of the digits [q * 10^k]. *)
Fixpoint shortest (m : positive) (e : Z) (p : Z) (n : Z) (fuel : nat) : Z * Z :=
  match fuel with
  | O => (Qfloor (QofFloat m e / pow10 (p - n))%Q, p - n)
  | S fuel' =>
      match candidate m e p n with
      | Some q => (q, p - n)
      | None => shortest m e p (n + 1) fuel'
      end
  end.

(** Digits without trailing zeros, and the decimal point position: the
    value is [0.d1 d2 ... dk * 10^decpt]. *)
Definition digits_of (m : positive) (e : Z) : string * Z :=
  let p := decpt_of (QofFloat m e) in
  let '(q, k) := shortest m e p 1 17 in
  let all := Pos.to_uint (Z.to_pos q) in
  (NilEmpty.string_of_uint (fst (Decimal.nztail all)),
   k + Z.of_nat (Decimal.nb_digits all)).

Fixpoint zeros (n : nat) : string :=
  match n with
  | O => ""
  | S n' => "0" ++ zeros n'
  end.

(** The exponent of the exponent notation: a sign and at least two
    digits. *)
Definition exp_text (x : Z) : string :=
  let a := NilZero.string_of_uint (N.to_uint (Z.to_N (Z.abs x))) in
  (if x <? 0 then "-" else "+") ++
  (if Z.abs x <? 10 then "0" ++ a else a).

Definition format_repr (digits : string) (decpt : Z) : string :=
  let nd := Z.of_nat (String.length digits) in
  if (decpt <=? -4) || (16 <? decpt) then
    String.substring 0 1 digits ++
    (if 1 <? nd then "." ++ String.substring 1 (String.length digits - 1)%nat digits
     else "") ++
    "e" ++ exp_text (decpt - 1)
  else if decpt <=? 0 then
    "0." ++ zeros (Z.to_nat (- decpt)) ++ digits
  else if decpt <? nd then
    String.substring 0 (Z.to_nat decpt) digits ++ "." ++
    String.substring (Z.to_nat decpt) (String.length digits - Z.to_nat decpt)%nat digits
  else
    digits ++ zeros (Z.to_nat (decpt - nd)) ++ ".0".

(** [repr(x)], which is also [str(x)] and what an f-string field prints. *)
Definition float_repr (x : float) : string :=
  match x with
  | S754_nan => "nan"
  | S754_infinity s => if s then "-inf" else "inf"
  | S754_zero s => if s then "-0.0" else "0.0"
  | S754_finite s m e =>
      let '(digits, decpt) := digits_of m e in
      (if s then "-" else "") ++ format_repr digits decpt
  end.

(** What [f"{v}"] prints for a number. *)
Definition py_str (v : pynum) : string :=
  match v with
  | PyInt n => str_int n
  | PyFloat f => float_repr f
  end.

End PyStr.

(* ===================================================================== *)
(** * The interpreter state the function runs in *)
(* ===================================================================== *)

Module Py.
Local Open Scope string_scope.

(** The exceptions the modelled code can raise. *)
Inductive exn : Type :=
| ValueError (msg : string)
| IndexError.

(** The mutable state of one activation of [image_to_equations]: the list
    bound to [lines], which the loop bodies append to. *)
Record frame : Type := { lines : list string }.

(** A statement: it runs in a frame and either raises or returns a value
    and the frame it leaves. *)
Definition stmt (A : Type) : Type := frame -> exn + (A * frame).

Definition ret {A} (a : A) : stmt A := fun fr => inr (a, fr).

Definition bind {A B} (c : stmt A) (k : A -> stmt B) : stmt B :=
  fun fr =>
    match c fr with
    | inl e => inl e
    | inr (a, fr') => k a fr'
    end.

Definition raise {A} (e : exn) : stmt A := fun _ => inl e.

(** [lines = v] *)
Definition assign_lines (v : list string) : stmt unit :=
  fun _ => inr (tt, {| lines := v |}).

(** reading [lines] *)
Definition read_lines : stmt (list string) :=
  fun fr => inr (lines fr, fr).

(** [lines.append(eq)] *)
Definition lines_append (eq : string) : stmt unit :=
  fun fr => inr (tt, {| lines := lines fr ++ [eq] |}).

(** [a[i]] on a sequence: [IndexError] out of range. *)
Definition index {A} (a : list A) (i : nat) : stmt A :=
  match nth_error a i with
  | Some x => ret x
  | None => raise IndexError
  end.

(** [for x in xs: body(x)] *)
Fixpoint for_each {A} (xs : list A) (body : A -> stmt unit) : stmt unit :=
  match xs with
  | [] => ret tt
  | x :: rest => bind (body x) (fun _ => for_each rest body)
  end.

End Py.

Declare Scope py_scope.
Delimit Scope py_scope with py.
Notation "x <- c ;; k" := (Py.bind c (fun x => k))
  (at level 61, c at next level, right associativity) : py_scope.
Notation "c ;; k" := (Py.bind c (fun _ => k))
  (at level 61, right associativity) : py_scope.

(* ===================================================================== *)
(** * The specification's vocabulary *)
(* ===================================================================== *)

(** These definitions follow the words of the specification (data model,
    section 4.4 and the output contract); the program is compared with them
    below. *)
Module Spec.
Import PyNum PyStr.
Local Open Scope string_scope.
Local Open Scope Z_scope.

(** The four coefficients of one axis of a cubic Bezier blend. *)
Record cubic : Type := Cubic { b0 : float; b1 : float; b2 : float; b3 : float }.

(** Equation: a tagged value, geometry only. *)
Inductive Equation : Type :=
| VerticalLine (x y0 y1 : Z)
| HorizontalLine (y x0 x1 : Z)
| ParametricCurve (xExpr yExpr : cubic).

(** cartY(p) = imageHeight - p.y *)
Definition cartY (imageHeight y : Z) : Z := imageHeight - y.

(** The synthetic control points by linear interpolation, as exact
    numbers: p1 + (p2 - p1)/3 and p1 + 2 (p2 - p1)/3. *)
Definition control1 (p1 p2 : Z) : Q :=
  (inject_Z p1 + (inject_Z p2 - inject_Z p1) / 3)%Q.
Definition control2 (p1 p2 : Z) : Q :=
  (inject_Z p1 + 2 * (inject_Z p2 - inject_Z p1) / 3)%Q.

(** The Segments of a polygon: the consecutive vertex pairs, including the
    wrap-around pair (last, first). *)
Definition segments {A} (vs : list A) : list (A * A) :=
  combine vs (tl vs ++ firstn 1 vs).

(** "values are decimal numbers, ints where integral" *)
Definition integral_value (x : float) : option Z :=
  match x with
  | S754_zero _ => Some 0
  | S754_finite s m e =>
      let n := if s then Zneg m else Zpos m in
      if 0 <=? e then Some (n * 2 ^ e)
      else if n mod 2 ^ (- e) =? 0 then Some (n / 2 ^ (- e))
      else None
  | S754_infinity _ | S754_nan => None
  end.

Definition show_value (x : float) : string :=
  match integral_value x with
  | Some n => str_int n
  | None => float_repr x
  end.

(** The cubic-Bezier polynomial in t with the coefficients substituted. *)
Definition blend (show : float -> string) (c : cubic) : string :=
  "(1-t)^3*" ++ show (b0 c) ++ " + 3*(1-t)^2*t*" ++ show (b1 c) ++
  " + 3*(1-t)*t^2*" ++ show (b2 c) ++ " + t^3*" ++ show (b3 c).

(** The rendering rules of the output contract, for a given way of
    writing a curve coefficient.  The x expression carries its own
    parentheses, as the contract's example does. *)
Definition render (show : float -> string) (e : Equation) : string :=
  match e with
  | VerticalLine x y0 y1 =>
      "x = " ++ str_int x ++ " \left\{" ++ str_int y0 ++ " <= y <= " ++
      str_int y1 ++ "\right\}"
  | HorizontalLine y x0 x1 =>
      "y = " ++ str_int y ++ " \left\{" ++ str_int x0 ++ " <= x <= " ++
      str_int x1 ++ "\right\}"
  | ParametricCurve xExpr yExpr =>
      "(" ++ ("(" ++ blend show xExpr ++ ")") ++ ", " ++ blend show yExpr ++ ")"
  end.

End Spec.

(* ===================================================================== *)
(** * The program *)
(* ===================================================================== *)

Module Main.
Import PyNum PyStr Py.
Local Open Scope string_scope.
Local Open Scope Z_scope.

(** A point of a contour array, and a contour: the int32 array of shape
    [(N, 1, 2)] that OpenCV returns, [c[i][0]] being its [i]-th point. *)
Definition point : Type := Z * Z.
Definition contour : Type := list point.

(** [bezier_to_equations(start, c1, c2, end, img_height)] *)
Definition bezier_to_equations
    (start c1 c2 end_ : pynum * pynum) (img_height : pynum)
    : string * string :=
  let start := (py_float (fst start), py_float (py_sub img_height (snd start))) in
  let c1    := (py_float (fst c1),    py_float (py_sub img_height (snd c1))) in
  let c2    := (py_float (fst c2),    py_float (py_sub img_height (snd c2))) in
  let end_  := (py_float (fst end_),  py_float (py_sub img_height (snd end_))) in
  let equation_x :=
    "((1-t)^3*" ++ float_repr (fst start) ++ " + " ++
    "3*(1-t)^2*t*" ++ float_repr (fst c1) ++ " + " ++
    "3*(1-t)*t^2*" ++ float_repr (fst c2) ++ " + " ++
    "t^3*" ++ float_repr (fst end_) ++ ")" in
  let equation_y :=
    "(1-t)^3*" ++ float_repr (snd start) ++ " + " ++
    "3*(1-t)^2*t*" ++ float_repr (snd c1) ++ " + " ++
    "3*(1-t)*t^2*" ++ float_repr (snd c2) ++ " + " ++
    "t^3*" ++ float_repr (snd end_) in
  (equation_x, equation_y).

Definition newline : string := String (ascii_of_nat 10) EmptyString.

Definition no_equations_text : string :=
  "# No contours/equations were detected. Try a clearer or higher-contrast image.".

(** The body of the inner loop (lines 168-199) for the two vertices
    [start = approx[i][0]] and [end = approx[(i + 1) % len(approx)][0]]. *)
Definition segment_body (img_height : Z) (start end_ : point) : stmt unit :=
  let '(x1, y1) := start in
  let '(x2, y2) := end_ in
  let dx := x2 - x1 in
  let dy := y2 - y1 in
  if dx =? 0 then
    let y_top    := img_height - Z.max y1 y2 in
    let y_bottom := img_height - Z.min y1 y2 in
    let eq := "x = " ++ str_int x1 ++ " \left\{" ++ str_int y_top ++
              " <= y <= " ++ str_int y_bottom ++ "\right\}" in
    lines_append eq
  else if dy =? 0 then
    let y_cart := img_height - y1 in
    let x_left := Z.min x1 x2 in
    let x_right := Z.max x1 x2 in
    let eq := "y = " ++ str_int y_cart ++ " \left\{" ++ str_int x_left ++
              " <= x <= " ++ str_int x_right ++ "\right\}" in
    lines_append eq
  else
    let c1 := (PyFloat (div3 (2 * x1 + x2)), PyFloat (div3 (2 * y1 + y2))) in
    let c2 := (PyFloat (div3 (x1 + 2 * x2)), PyFloat (div3 (y1 + 2 * y2))) in
    let '(eq_x, eq_y) :=
      bezier_to_equations (PyInt x1, PyInt y1) c1 c2 (PyInt x2, PyInt y2)
                          (PyInt img_height) in
    lines_append ("(" ++ eq_x ++ ", " ++ eq_y ++ ")").

Section Pipeline.

(** The arrays OpenCV works on, and the OpenCV functions called, with the
    arguments the call sites leave open. *)
Variable ndarray : Type.
Variable shape0 : ndarray -> Z.
Variable cvtColor_BGR2GRAY : ndarray -> ndarray.
Variable GaussianBlur : ndarray -> Z * Z -> Z -> ndarray.
Variable Canny : ndarray -> Z -> Z -> ndarray.
Variable findContours_LIST_SIMPLE : ndarray -> list contour.
Variable arcLength : contour -> bool -> float.
Variable approxPolyDP : contour -> float -> bool -> contour.

(** The inner loop: [for i in range(len(approx))]. *)
Definition segments_loop (img_height : Z) (approx : contour) : stmt unit :=
  for_each (seq 0 (List.length approx)) (fun i =>
    (start <- index approx i ;;
     end_ <- index approx ((i + 1) mod List.length approx)%nat ;;
     segment_body img_height start end_)%py).

(** The body of the outer loop: [continue] ends it early. *)
Definition contour_body (img_height : Z) (inaccuracy_value : pynum)
    (c : contour) : stmt unit :=
  if (List.length c <? 2)%nat then ret tt
  else
    let epsilon := fmul (py_float inaccuracy_value) (arcLength c true) in
    let approx := approxPolyDP c epsilon true in
    if (List.length approx <? 2)%nat then ret tt
    else segments_loop img_height approx.

(** [image_to_equations(image_bgr, inaccuracy_value)]; [None] is the
    image that could not be decoded. *)
Definition image_to_equations (image_bgr : option ndarray)
    (inaccuracy_value : pynum) : stmt string :=
  match image_bgr with
  | None => raise (ValueError "Could not decode image.")
  | Some image_bgr =>
      let img_height := shape0 image_bgr in
      let gray := cvtColor_BGR2GRAY image_bgr in
      let gray := GaussianBlur gray (5, 5) 0 in
      let edges := Canny gray 100 200 in
      let contours := findContours_LIST_SIMPLE edges in
      (assign_lines [] ;;
       for_each contours (contour_body img_height inaccuracy_value) ;;
       lines <- read_lines ;;
       match lines with
       | [] => ret no_equations_text
       | _ => ret (String.concat newline lines)
       end)%py
  end.

End Pipeline.

Arguments image_to_equations {ndarray}.

(** The default of the second parameter. *)
Definition default_inaccuracy_value : pynum := PyFloat lit_0_002.

End Main.

(* ===================================================================== *)
(** * The equations behind the emitted text *)
(* ===================================================================== *)

(** The geometry the loop body computes before it formats it, read off
    [segment_body] and [bezier_to_equations] branch by branch. *)
Module Geometry.
Import PyNum PyStr Py Spec Main.
Local Open Scope Z_scope.

(** The coefficients [bezier_to_equations] substitutes, per axis. *)
Definition curve_x (x1 x2 : Z) : cubic :=
  Cubic (float_of_int x1) (div3 (2 * x1 + x2)) (div3 (x1 + 2 * x2))
        (float_of_int x2).

Definition curve_y (img_height y1 y2 : Z) : cubic :=
  Cubic (float_of_int (img_height - y1))
        (fsub (float_of_int img_height) (div3 (2 * y1 + y2)))
        (fsub (float_of_int img_height) (div3 (y1 + 2 * y2)))
        (float_of_int (img_height - y2)).

Definition equation_of_segment (img_height : Z) (s : point * point) : Equation :=
  let '((x1, y1), (x2, y2)) := s in
  if x2 - x1 =? 0 then
    VerticalLine x1 (img_height - Z.max y1 y2) (img_height - Z.min y1 y2)
  else if y2 - y1 =? 0 then
    HorizontalLine (img_height - y1) (Z.min x1 x2) (Z.max x1 x2)
  else
    ParametricCurve (curve_x x1 x2) (curve_y img_height y1 y2).

(** The text of one segment as the program prints it: curve coefficients
    go through Python's float [repr]. *)
Definition line_of_segment (img_height : Z) (s : point * point) : string :=
  render float_repr (equation_of_segment img_height s).

(** What [image_to_equations] returns for the list [lines]. *)
Definition output_text (lines : list string) : string :=
  match lines with
  | [] => no_equations_text
  | _ => String.concat newline lines
  end.

(** The value a call returns or the exception it raises, without the
    frame it leaves. *)
Definition outcome {A} (r : exn + (A * frame)) : exn + A :=
  match r with
  | inl e => inl e
  | inr (a, _) => inr a
  end.

(** The frame a statement leaves after appending one line. *)
Definition appended (fr : frame) (line : string) : exn + (unit * frame) :=
  inr (tt, {| lines := lines fr ++ [line] |}).

(** [x] is the double nearest to the rational [q], ties to even: [q] lies
    in the interval of the reals that round to [x]. *)
Definition nearest_double (x : float) (q : Q) : bool :=
  match x with
  | S754_zero _ => Qeq_bool q 0
  | S754_finite s m e =>
      valid_binary prec emax x && rounds_to m e (if s then Qopp q else q)
  | S754_infinity _ | S754_nan => false
  end.


(** [x] is exactly the integer [n]. *)
Definition exact_double (x : float) (n : Z) : bool :=
  match float_value x with
  | Some q => Qeq_bool q (inject_Z n)
  | None => false
  end.

(** [float(n)] is exact and [n / 3.0] is the double nearest to [n/3]. *)
Definition third_ok (n : Z) : bool :=
  exact_double (float_of_int n) n && nearest_double (div3 n) (n # 3).

(** [f] holds on the [2^depth] integers from [lo] on. *)
Fixpoint holds_on (f : Z -> bool) (lo : Z) (depth : nat) : bool :=
  match depth with
  | O => f lo
  | S d => holds_on f lo d && holds_on f (lo + 2 ^ Z.of_nat d) d
  end.

(** The four corners of an axis-aligned square, clockwise on the screen
    from its top-left corner [(x, y)]. *)
Definition square (x y side : Z) : contour :=
  [(x, y); (x + side, y); (x + side, y + side); (x, y + side)].

(** A closed polygon listed from its [n]-th vertex on, and the polygon
    listed in either direction: a contour tracer may start at any corner
    and run either way round. *)
Definition rotate {A} (n : nat) (l : list A) : list A :=
  skipn n l ++ firstn n l.

Definition listed (backwards : bool) (n : nat) (c : contour) : contour :=
  rotate n (if backwards then rev c else c).

Section Pipeline.
Variable ndarray : Type.
Variable shape0 : ndarray -> Z.
Variable cvtColor_BGR2GRAY : ndarray -> ndarray.
Variable GaussianBlur : ndarray -> Z * Z -> Z -> ndarray.
Variable Canny : ndarray -> Z -> Z -> ndarray.
Variable findContours_LIST_SIMPLE : ndarray -> list contour.
Variable arcLength : contour -> bool -> float.
Variable approxPolyDP : contour -> float -> bool -> contour.

(** The equations one contour contributes. *)
Definition contour_equations (H : Z) (inaccuracy_value : pynum) (c : contour)
    : list Equation :=
  if (List.length c <? 2)%nat then []
  else
    let approx :=
      approxPolyDP c (fmul (py_float inaccuracy_value) (arcLength c true)) true in
    if (List.length approx <? 2)%nat then []
    else map (equation_of_segment H) (segments approx).

(** The number of times the inner loop runs for one contour: the vertex
    count of its polygon, or none when the contour or the polygon is
    skipped. *)
Definition polygon_size (inaccuracy_value : pynum) (c : contour) : nat :=
  if (List.length c <? 2)%nat then 0%nat
  else
    let approx :=
      approxPolyDP c (fmul (py_float inaccuracy_value) (arcLength c true)) true in
    if (List.length approx <? 2)%nat then 0%nat else List.length approx.

(** The equations of a list of contours, in the order the contours and
    their segments are visited. *)
Definition equations_of (H : Z) (k : pynum) (cs : list contour)
    : list Equation :=
  flat_map (contour_equations H k) cs.

(** The contours the OpenCV stages find in an image. *)
Definition contours_of (image_bgr : ndarray) : list contour :=
  findContours_LIST_SIMPLE
    (Canny (GaussianBlur (cvtColor_BGR2GRAY image_bgr) (5, 5) 0) 100 200).

Definition all_equations (image_bgr : ndarray) (k : pynum) : list Equation :=
  equations_of (shape0 image_bgr) k (contours_of image_bgr).

Definition all_lines (image_bgr : ndarray) (k : pynum) : list string :=
  map (render float_repr) (all_equations image_bgr k).

End Pipeline.

Arguments contours_of {ndarray}.
Arguments all_equations {ndarray}.
Arguments all_lines {ndarray}.

End Geometry.

(* ===================================================================== *)
(** * The shape of printed numbers *)
(* ===================================================================== *)

Module Syntax.
Local Open Scope string_scope.

(** The first character of a text, if any. *)
Definition head_char (s : string) : option ascii :=
  match s with
  | EmptyString => None
  | String c _ => Some c
  end.

(** Membership of a character in a text. *)
Fixpoint occurs (c : ascii) (s : string) : bool :=
  match s with
  | EmptyString => false
  | String d r => Ascii.eqb c d || occurs c r
  end.

Definition is_digit (c : ascii) : bool :=
  let n := nat_of_ascii c in (48 <=? n)%nat && (n <=? 57)%nat.

Fixpoint all_digits (s : string) : bool :=
  match s with
  | EmptyString => true
  | String c r => is_digit c && all_digits r
  end.

(** An int literal: decimal digits, at least one, after an optional
    minus sign. *)
Definition int_literal (s : string) : bool :=
  match s with
  | EmptyString => false
  | String "-" (String c r) => all_digits (String c r)
  | String c r => all_digits (String c r)
  end.

End Syntax.

(* ===================================================================== *)
(** * A concrete stand-in for the OpenCV stages *)
(* ===================================================================== *)

(** An "image" that is its height together with the contours already traced
    in it, and a simplifier that keeps every vertex.  The statements below
    are evaluated on it. *)
Module Fixture.
Import PyNum PyStr Py Spec Main Geometry.
Local Open Scope Z_scope.

Definition ndarray : Type := Z * list contour.
Definition shape0 (a : ndarray) : Z := fst a.
Definition cvtColor_BGR2GRAY (a : ndarray) : ndarray := a.
Definition GaussianBlur (a : ndarray) (ksize : Z * Z) (sigma : Z) : ndarray := a.
Definition Canny (a : ndarray) (low high : Z) : ndarray := a.
Definition findContours_LIST_SIMPLE (a : ndarray) : list contour := snd a.
Definition arcLength (c : contour) (closed : bool) : float := float_of_int 0.
Definition approxPolyDP (c : contour) (epsilon : float) (closed : bool) : contour := c.

Definition run (image_bgr : option ndarray) (k : pynum) : stmt string :=
  image_to_equations shape0 cvtColor_BGR2GRAY GaussianBlur Canny
    findContours_LIST_SIMPLE arcLength approxPolyDP image_bgr k.

Definition empty_frame : frame := {| lines := [] |}.

(** A triangle with one vertical, one horizontal and one slanted side,
    next to a contour of a single point, in an image of height 10. *)
Definition triangle : contour := [(0, 0); (0, 5); (5, 5)].
Definition speck : contour := [(1, 1)].
Definition picture : ndarray := (10, [speck; triangle]).

(** An image in which only the speck is found, and a featureless one. *)
Definition dusty : ndarray := (10, [speck]).
Definition blank : ndarray := (10, []).

End Fixture.

(* ===================================================================== *)
(** * The request handler *)
(* ===================================================================== *)

(** [index()], the view behind the route ["/"].  Flask's request object is
    a record of the three things the view reads; the page it answers with
    is [render_template_string] applied to [HTML_PAGE] and the keyword
    arguments, which are kept as a record. *)
Module Web.
Import PyNum PyStr Py Main Geometry.
Local Open Scope string_scope.

(** A value handed to the template: a str or a number. *)
Inductive pyval : Type :=
| PStr (s : string)
| PNum (v : pynum).

(** An uploaded file: its name, if the browser sent one, and what
    [file.read()] returns. *)
Record FileStorage : Type :=
  { filename : option string; content : list Byte.byte }.

(** [request.method], [request.form] and [request.files]; the two
    multi-dicts keep their entries in order. *)
Record request : Type :=
  { method : string;
    form : list (string * string);
    files : list (string * FileStorage) }.

(** The keyword arguments of [render_template_string]. *)
Record context : Type :=
  { equations : string; error : string; inaccuracy : pyval }.

(** [d.get(key)] on a multi-dict: the first value stored under the key. *)
Fixpoint multidict_get {A} (key : string) (d : list (string * A)) : option A :=
  match d with
  | [] => None
  | (k, v) :: rest => if String.eqb k key then Some v else multidict_get key rest
  end.

(** [x <= 0] for a float [x]: false for NaN. *)
Definition le_zero (x : float) : bool := SFleb x (S754_zero false).

(** [bool(file)] for a FileStorage: the truth value of its filename. *)
Definition truthy (file : FileStorage) : bool :=
  match filename file with
  | None => false
  | Some name => negb (String.eqb name "")
  end.

(** [file.filename == ""] *)
Definition filename_is_empty (file : FileStorage) : bool :=
  match filename file with
  | None => false
  | Some name => String.eqb name ""
  end.

(** The floats [x <= 0] holds for: the zeros, the negative numbers and
    minus infinity; not NaN. *)
Definition nonpositive (x : float) : Prop :=
  match x with
  | S754_zero _ => True
  | S754_finite s _ _ => s = true
  | S754_infinity s => s = true
  | S754_nan => False
  end.

(** [request.form.get("inaccuracy", str(0.002))] *)
Definition inaccuracy_field (req : request) : string :=
  match multidict_get "inaccuracy" (form req) with
  | Some v => v
  | None => float_repr lit_0_002
  end.

Definition invalid_inaccuracy_text : string :=
  "Invalid inaccuracy value. Please enter a positive number.".
Definition no_upload_text : string := "Please upload an image file.".
Definition processing_prefix : string := "Error processing image: ".

Section Handler.

Variable ndarray : Type.
Variable shape0 : ndarray -> Z.
Variable cvtColor_BGR2GRAY : ndarray -> ndarray.
Variable GaussianBlur : ndarray -> Z * Z -> Z -> ndarray.
Variable Canny : ndarray -> Z -> Z -> ndarray.
Variable findContours_LIST_SIMPLE : ndarray -> list contour.
Variable arcLength : contour -> bool -> float.
Variable approxPolyDP : contour -> float -> bool -> contour.

(** [float(s)] for a str: [None] when it raises [ValueError]. *)
Variable float_of_str : string -> option float.

(** [cv2.imdecode(np.frombuffer(data, np.uint8), cv2.IMREAD_COLOR)]: the
    image, [None] for data that is no image, or a raised [cv2.error] with
    its text. *)
Variable imdecode_COLOR : list Byte.byte -> string + option ndarray.

(** The page template, Flask's renderer and the response it builds. *)
Variable response : Type.
Variable HTML_PAGE : string.
Variable render_template_string : string -> context -> response.

(** [str(e)] of an [IndexError] of the array library. *)
Variable IndexError_text : string.

(** [cv2.approxPolyDP] raises a [cv2.error] for an epsilon it refuses (a
    NaN, a negative or a huge one): the text of that error, [None] for an
    epsilon it accepts. *)
Variable approxPolyDP_error : float -> option string.

(** [str(e)] *)
Definition exn_text (e : exn) : string :=
  match e with
  | ValueError msg => msg
  | IndexError => IndexError_text
  end.

(** The first [try] block: the tolerance, or [None] when the block ends in
    the [except ValueError] clause. *)
Definition read_inaccuracy (inaccuracy_str : string) : option float :=
  match float_of_str inaccuracy_str with
  | None => None
  | Some inaccuracy_value =>
      if le_zero inaccuracy_value then None else Some inaccuracy_value
  end.

(** The error that ends the loop of [image_to_equations] over the
    contours, if one does: that of the first contour whose epsilon
    [approxPolyDP] refuses.  A contour of fewer than 2 points is skipped
    before [approxPolyDP] is called. *)
Fixpoint first_refusal (inaccuracy_value : float) (contours : list contour)
    : option string :=
  match contours with
  | [] => None
  | contour :: rest =>
      if (List.length contour <? 2)%nat then first_refusal inaccuracy_value rest
      else
        let epsilon := fmul inaccuracy_value (arcLength contour true) in
        match approxPolyDP_error epsilon with
        | Some msg => Some msg
        | None => first_refusal inaccuracy_value rest
        end
  end.

(** The [cv2.error] raised inside the call
    [image_to_equations(image_bgr, inaccuracy_value)], if any. *)
Definition raised_inside (image_bgr : option ndarray) (inaccuracy_value : float)
    : option string :=
  match image_bgr with
  | None => None
  | Some image =>
      first_refusal inaccuracy_value
        (contours_of cvtColor_BGR2GRAY GaussianBlur Canny
           findContours_LIST_SIMPLE image)
  end.

(** The second [try] block: the values of [equations] and [error] after
    it, both [""] before it.  Every exception raised in the block, by the
    decoder, by [approxPolyDP] or by [image_to_equations] itself, ends in
    the [except] clause. *)
Definition process_upload (file : FileStorage) (inaccuracy_value : float)
    (fr : frame) : string * string :=
  match imdecode_COLOR (content file) with
  | inl msg => ("", processing_prefix ++ msg)
  | inr image_bgr =>
      match raised_inside image_bgr inaccuracy_value with
      | Some msg => ("", processing_prefix ++ msg)
      | None =>
          match image_to_equations shape0 cvtColor_BGR2GRAY GaussianBlur Canny
                  findContours_LIST_SIMPLE arcLength approxPolyDP
                  image_bgr (PyFloat inaccuracy_value) fr with
          | inl e => ("", processing_prefix ++ exn_text e)
          | inr (text, _) => (text, "")
          end
      end
  end.

(** [index()]; [fr] is the frame the call of [image_to_equations] starts
    in. *)
Definition index (req : request) (fr : frame) : response :=
  let inaccuracy_default := lit_0_002 in
  if String.eqb (method req) "POST" then
    let inaccuracy_str :=
      match multidict_get "inaccuracy" (form req) with
      | Some v => v
      | None => float_repr inaccuracy_default
      end in
    match read_inaccuracy inaccuracy_str with
    | None =>
        render_template_string HTML_PAGE
          {| equations := ""; error := invalid_inaccuracy_text;
             inaccuracy := PStr inaccuracy_str |}
    | Some inaccuracy_value =>
        match multidict_get "image" (files req) with
        | None =>
            render_template_string HTML_PAGE
              {| equations := ""; error := no_upload_text;
                 inaccuracy := PNum (PyFloat inaccuracy_value) |}
        | Some file =>
            if negb (truthy file) || filename_is_empty file then
              render_template_string HTML_PAGE
                {| equations := ""; error := no_upload_text;
                   inaccuracy := PNum (PyFloat inaccuracy_value) |}
            else
              let '(equations, error) :=
                process_upload file inaccuracy_value fr in
              render_template_string HTML_PAGE
                {| equations := equations; error := error;
                   inaccuracy := PNum (PyFloat inaccuracy_value) |}
        end
    end
  else
    render_template_string HTML_PAGE
      {| equations := ""; error := "";
         inaccuracy := PNum (PyFloat inaccuracy_default) |}.

End Handler.

Arguments index {ndarray} _ _ _ _ _ _ _ _ _ {response}.
Arguments process_upload {ndarray}.
Arguments raised_inside {ndarray}.

End Web.

(* ===================================================================== *)
(** * Reading the emitted text *)
(* ===================================================================== *)

Module Reading.
Import PyNum PyStr Py Spec Main Geometry Syntax.
Local Open Scope string_scope.
Local Open Scope Z_scope.

(** [text.split(sep)] for a one-character separator. *)
Fixpoint split_at (sep : ascii) (text : string) : list string :=
  match text with
  | EmptyString => [EmptyString]
  | String c rest =>
      if Ascii.eqb c sep then EmptyString :: split_at sep rest
      else
        match split_at sep rest with
        | [] => [String c EmptyString]
        | l :: ls => String c l :: ls
        end
  end.

Definition newline_char : ascii := ascii_of_nat 10.

(** The characters a float prints with. *)
Definition float_char (c : ascii) : bool :=
  is_digit c || occurs c ".e+-infa".

Fixpoint all_float_chars (s : string) : bool :=
  match s with
  | EmptyString => true
  | String c r => float_char c && all_float_chars r
  end.

(** The range of a line is not inverted, and a horizontal line is longer
    than a point. *)
Definition well_ranged (e : Equation) : Prop :=
  match e with
  | VerticalLine _ y0 y1 => y0 <= y1
  | HorizontalLine _ x0 x1 => x0 < x1
  | ParametricCurve _ _ => True
  end.

(** The values of a line lie in the band of the image: right of the y
    axis and between 0 and the image height. *)
Definition in_band (H : Z) (e : Equation) : Prop :=
  match e with
  | VerticalLine x y0 y1 => 0 <= x /\ 0 <= y0 /\ y1 <= H
  | HorizontalLine y x0 x1 => 0 <= y <= H /\ 0 <= x0
  | ParametricCurve _ _ => True
  end.

(** The same blend run backwards. *)
Definition reversed (c : cubic) : cubic := Cubic (b3 c) (b2 c) (b1 c) (b0 c).

Definition reversed_equation (e : Equation) : Equation :=
  match e with
  | ParametricCurve xs ys => ParametricCurve (reversed xs) (reversed ys)
  | _ => e
  end.

End Reading.

(** A stand-in for the handler's collaborators.  The tolerance strings
    "0.002" and "0.01" read as these numbers and no other string reads;
    the decoder knows one file, an 8 x 8 PNG image that is white all
    over, in which no contour is found, raises on an upload without bytes
    and takes any other data for no image; [approxPolyDP] refuses a
    negative epsilon, a NaN and one that is not below 1e30; the page is the
    record of its keyword arguments. *)
Module WebFixture.
Import PyNum PyStr Py Main Web.
Local Open Scope string_scope.

Definition float_of_str (s : string) : option float :=
  if String.eqb s "0.002" then Some lit_0_002
  else if String.eqb s "0.01" then Some (fdiv (float_of_int 1) (float_of_int 100))
  else None.

Definition white_png : list Byte.byte :=
  [ Byte.x89; Byte.x50; Byte.x4e; Byte.x47; Byte.x0d; Byte.x0a; Byte.x1a; Byte.x0a;
    Byte.x00; Byte.x00; Byte.x00; Byte.x0d; Byte.x49; Byte.x48; Byte.x44; Byte.x52;
    Byte.x00; Byte.x00; Byte.x00; Byte.x08; Byte.x00; Byte.x00; Byte.x00; Byte.x08;
    Byte.x08; Byte.x02; Byte.x00; Byte.x00; Byte.x00; Byte.x4b; Byte.x6d; Byte.x29;
    Byte.xdc; Byte.x00; Byte.x00; Byte.x00; Byte.x0f; Byte.x49; Byte.x44; Byte.x41;
    Byte.x54; Byte.x78; Byte.xda; Byte.x63; Byte.xf8; Byte.x8f; Byte.x03; Byte.x30;
    Byte.x0c; Byte.x2d; Byte.x09; Byte.x00; Byte.xba; Byte.x1e; Byte.xbf; Byte.x41;
    Byte.x89; Byte.xe8; Byte.xb6; Byte.xbb; Byte.x00; Byte.x00; Byte.x00; Byte.x00;
    Byte.x49; Byte.x45; Byte.x4e; Byte.x44; Byte.xae; Byte.x42; Byte.x60; Byte.x82 ].

Definition white : Fixture.ndarray := (8, []).

Fixpoint same_bytes (a b : list Byte.byte) : bool :=
  match a, b with
  | [], [] => true
  | x :: a', y :: b' => Byte.eqb x y && same_bytes a' b'
  | _, _ => false
  end.

Definition imdecode_COLOR (data : list Byte.byte) : string + option Fixture.ndarray :=
  match data with
  | [] => inl "(-215:Assertion failed) !buf.empty() in function 'imdecode_'"
  | _ => if same_bytes data white_png then inr (Some white) else inr None
  end.

Definition approxPolyDP_error (epsilon : float) : option string :=
  if SFltb epsilon (S754_zero false)
     || negb (SFltb epsilon (float_of_int (10 ^ 30)))
  then Some "(-211:One of the arguments' values is out of range) Epsilon not valid. in function 'approxPolyDP'"
  else None.

Definition render_template_string (template : string) (ctx : context) : context := ctx.

Definition index (req : request) (fr : frame) : context :=
  Web.index Fixture.shape0 Fixture.cvtColor_BGR2GRAY Fixture.GaussianBlur
    Fixture.Canny Fixture.findContours_LIST_SIMPLE Fixture.arcLength
    Fixture.approxPolyDP float_of_str imdecode_COLOR "page"
    render_template_string "index out of range" approxPolyDP_error req fr.

Definition upload : FileStorage :=
  {| filename := Some "drawing.png"; content := white_png |}.

(** A text file sent in place of an image. *)
Definition note : FileStorage :=
  {| filename := Some "note.txt";
     content := [Byte.x68; Byte.x65; Byte.x6c; Byte.x6c; Byte.x6f] |}.

Definition post (tolerance : string) (fs : list (string * FileStorage)) : request :=
  {| method := "POST"; form := [("inaccuracy", tolerance)]; files := fs |}.

End WebFixture.

(* ===================================================================== *)
(** * Strings and loops *)
(* ===================================================================== *)

Module Aux.
Import Py Syntax.
Local Open Scope string_scope.

Lemma append_assoc (a b c : string) : (a ++ b) ++ c = a ++ (b ++ c).
Proof.
  induction a as [|ch a IH]; simpl.
  - reflexivity.
  - now rewrite IH.
Qed.

Lemma head_char_concat sep l ls :
  l <> "" -> head_char (String.concat sep (l :: ls)) = head_char l.
Proof.
  intros Hl. destruct l as [|c l]; [congruence|].
  destruct ls; reflexivity.
Qed.

(** ** The loop combinator *)

Lemma for_each_app {A} (xs ys : list A) body fr :
  for_each (xs ++ ys) body fr
  = bind (for_each xs body) (fun _ => for_each ys body) fr.
Proof.
  revert fr. induction xs as [|x xs IH]; intros fr; simpl.
  - reflexivity.
  - unfold bind in *. destruct (body x fr) as [e|[[] fr']]; [reflexivity|].
    apply IH.
Qed.

Lemma for_each_ext {A} (xs : list A) f g :
  (forall x fr, In x xs -> f x fr = g x fr) ->
  forall fr, for_each xs f fr = for_each xs g fr.
Proof.
  induction xs as [|x xs IH]; intros Hfg fr; simpl.
  - reflexivity.
  - unfold bind. rewrite (Hfg x fr (or_introl eq_refl)).
    destruct (g x fr) as [e|[[] fr']]; [reflexivity|].
    apply IH. intros y fr0 Hy. apply Hfg. now right.
Qed.

Lemma for_each_map {A B} (h : A -> B) (xs : list A) body fr :
  for_each (map h xs) body fr = for_each xs (fun x => body (h x)) fr.
Proof.
  revert fr. induction xs as [|x xs IH]; intros fr; simpl.
  - reflexivity.
  - unfold bind. destruct (body (h x) fr) as [e|[[] fr']]; [reflexivity|].
    apply IH.
Qed.

(** A loop whose body only appends one line per element. *)
Lemma for_each_appends {A} (xs : list A) body (line : A -> string) :
  (forall x fr, In x xs ->
     body x fr = inr (tt, {| lines := lines fr ++ [line x] |})) ->
  forall fr,
    for_each xs body fr = inr (tt, {| lines := lines fr ++ map line xs |}).
Proof.
  induction xs as [|x xs IH]; intros Hb fr; simpl.
  - rewrite app_nil_r. destruct fr; reflexivity.
  - unfold bind. rewrite (Hb x fr (or_introl eq_refl)).
    rewrite IH by (intros y fr0 Hy; apply Hb; now right).
    simpl. now rewrite <- app_assoc.
Qed.

(** ** Cyclic pairs by index *)

Local Open Scope list_scope.

Lemma nth_error_segments {A} (vs : list A) (i : nat) (p q : A) :
  nth_error vs i = Some p ->
  nth_error vs ((i + 1) mod List.length vs) = Some q ->
  nth_error (Spec.segments vs) i = Some (p, q).
Proof.
  unfold Spec.segments. destruct vs as [|v rest]; [destruct i; discriminate|].
  cbn [tl firstn]. intros Hp Hq.
  assert (Hi : (i < List.length (v :: rest))%nat)
    by (apply nth_error_Some; congruence).
  cbn [List.length] in *.
  assert (Hq' : nth_error (rest ++ [v]) i = Some q).
  { destruct (Nat.eq_dec (i + 1) (S (List.length rest))) as [E|E].
    - rewrite E, Nat.Div0.mod_same in Hq. cbn in Hq.
      rewrite nth_error_app2 by (clear - E; lia).
      replace (i - List.length rest)%nat with 0%nat by (clear - E; lia).
      exact Hq.
    - rewrite Nat.mod_small in Hq by (clear - E Hi; lia).
      replace (i + 1)%nat with (S i) in Hq by (clear; lia). cbn in Hq.
      rewrite nth_error_app1 by (clear - E Hi; lia). exact Hq. }
  clear Hq Hi. revert i Hp Hq'.
  generalize (rest ++ [v]) as ws. generalize (v :: rest) as us.
  induction us as [|u us IH]; intros ws i Hp Hq.
  - destruct i; discriminate.
  - destruct ws as [|w ws]; [destruct i; discriminate|].
    destruct i as [|i]; cbn in *.
    + congruence.
    + now apply IH.
Qed.

Lemma length_segments {A} (vs : list A) :
  List.length (Spec.segments vs) = List.length vs.
Proof.
  unfold Spec.segments. destruct vs as [|v rest]; [reflexivity|].
  cbn [tl firstn]. rewrite length_combine, length_app. cbn [List.length].
  apply Nat.min_l. clear. lia.
Qed.

Lemma seq_nth_error_list {A} (l : list A) (d : A) :
  l = map (fun i => nth i l d) (seq 0 (List.length l)).
Proof.
  induction l as [|x l IH]; cbn.
  - reflexivity.
  - f_equal. rewrite <- seq_shift, map_map. exact IH.
Qed.

End Aux.

(* ===================================================================== *)
(** * What the loops do *)
(* ===================================================================== *)

Module Loops.
Import PyNum PyStr Py Spec Main Geometry Syntax Aux.
Local Open Scope string_scope.
Local Open Scope list_scope.
Local Open Scope Z_scope.

(** The x expression of [bezier_to_equations] is the blend in
    parentheses, the y expression the bare blend. *)
Lemma bezier_to_equations_int (x1 y1 x2 y2 H : Z) :
  bezier_to_equations
    (PyInt x1, PyInt y1)
    (PyFloat (div3 (2 * x1 + x2)), PyFloat (div3 (2 * y1 + y2)))
    (PyFloat (div3 (x1 + 2 * x2)), PyFloat (div3 (y1 + 2 * y2)))
    (PyInt x2, PyInt y2) (PyInt H)
  = (("(" ++ blend float_repr (curve_x x1 x2) ++ ")")%string,
     blend float_repr (curve_y H y1 y2)).
Proof.
  unfold bezier_to_equations, blend, curve_x, curve_y.
  cbn [fst snd py_float py_sub b0 b1 b2 b3].
  f_equal.
  repeat (rewrite ?append_assoc; cbn [append]; f_equal).
Qed.

(** One run of the loop body appends exactly one line: the rendering of
    the segment's equation. *)
Lemma segment_body_spec (H : Z) (start end_ : point) (fr : frame) :
  segment_body H start end_ fr
  = inr (tt, {| lines := lines fr ++ [line_of_segment H (start, end_)] |}).
Proof.
  destruct start as [x1 y1], end_ as [x2 y2].
  unfold segment_body, line_of_segment, equation_of_segment.
  destruct (x2 - x1 =? 0); [reflexivity|].
  destruct (y2 - y1 =? 0); [reflexivity|].
  rewrite bezier_to_equations_int. reflexivity.
Qed.

Section Pipeline.
Variable ndarray : Type.
Variable shape0 : ndarray -> Z.
Variable cvtColor_BGR2GRAY : ndarray -> ndarray.
Variable GaussianBlur : ndarray -> Z * Z -> Z -> ndarray.
Variable Canny : ndarray -> Z -> Z -> ndarray.
Variable findContours_LIST_SIMPLE : ndarray -> list contour.
Variable arcLength : contour -> bool -> float.
Variable approxPolyDP : contour -> float -> bool -> contour.

Local Abbreviation contour_equations :=
  (Geometry.contour_equations arcLength approxPolyDP).
Local Abbreviation equations_of := (Geometry.equations_of arcLength approxPolyDP).
Local Abbreviation contours_of :=
  (Geometry.contours_of cvtColor_BGR2GRAY GaussianBlur Canny
     findContours_LIST_SIMPLE).
Local Abbreviation all_equations :=
  (Geometry.all_equations shape0 cvtColor_BGR2GRAY GaussianBlur Canny
     findContours_LIST_SIMPLE arcLength approxPolyDP).
Local Abbreviation all_lines :=
  (Geometry.all_lines shape0 cvtColor_BGR2GRAY GaussianBlur Canny
     findContours_LIST_SIMPLE arcLength approxPolyDP).

(** The inner loop never indexes out of range, and appends one line per
    cyclic vertex pair, in order. *)
Lemma segments_loop_spec (H : Z) (approx : contour) (fr : frame) :
  segments_loop H approx fr
  = inr (tt, {| lines := lines fr
                         ++ map (line_of_segment H) (segments approx) |}).
Proof.
  unfold segments_loop.
  set (n := List.length approx).
  set (body := fun i : nat => _).
  assert (Hb : forall i fr0, In i (seq 0 n) ->
             body i fr0
             = inr (tt, {| lines := lines fr0 ++
                 [line_of_segment H (nth i (segments approx) ((0,0),(0,0)))] |})).
  { intros i fr0 Hi. apply in_seq in Hi. subst body n. cbv beta.
    assert (Hj : ((i + 1) mod List.length approx < List.length approx)%nat)
      by (apply Nat.mod_upper_bound; lia).
    destruct (nth_error approx i) as [p|] eqn:Ep;
      [|apply nth_error_None in Ep; lia].
    destruct (nth_error approx ((i + 1) mod List.length approx)) as [q|] eqn:Eq;
      [|apply nth_error_None in Eq; lia].
    unfold bind, index. rewrite Ep, Eq. unfold ret.
    rewrite segment_body_spec.
    rewrite (nth_error_nth _ _ _ (nth_error_segments _ _ _ _ Ep Eq)).
    reflexivity. }
  rewrite (for_each_appends _ _ _ Hb).
  rewrite <- map_map with (g := line_of_segment H).
  subst n. rewrite <- (length_segments approx).
  now rewrite <- seq_nth_error_list.
Qed.

Lemma contour_body_spec (H : Z) (k : pynum) (c : contour) (fr : frame) :
  contour_body arcLength approxPolyDP H k c fr
  = inr (tt, {| lines := lines fr
                         ++ map (render float_repr) (contour_equations H k c) |}).
Proof.
  unfold contour_body, contour_equations.
  destruct (List.length c <? 2)%nat.
  - cbn [map]. rewrite app_nil_r. destruct fr; reflexivity.
  - cbv zeta.
    destruct (List.length (approxPolyDP c _ true) <? 2)%nat.
    + cbn [map]. rewrite app_nil_r. destruct fr; reflexivity.
    + rewrite segments_loop_spec, map_map. reflexivity.
Qed.

Lemma contours_loop_spec (H : Z) (k : pynum) (cs : list contour) (fr : frame) :
  for_each cs (contour_body arcLength approxPolyDP H k) fr
  = inr (tt, {| lines := lines fr
                         ++ map (render float_repr) (equations_of H k cs) |}).
Proof.
  unfold equations_of.
  revert fr. induction cs as [|c cs IH]; intros fr; cbn [for_each flat_map].
  - cbn [map]. rewrite app_nil_r. destruct fr; reflexivity.
  - unfold bind. rewrite contour_body_spec, IH. cbn [lines].
    now rewrite map_app, <- app_assoc.
Qed.

Lemma image_to_equations_spec (image_bgr : ndarray) (k : pynum) (fr : frame) :
  image_to_equations shape0 cvtColor_BGR2GRAY GaussianBlur Canny
    findContours_LIST_SIMPLE arcLength approxPolyDP (Some image_bgr) k fr
  = inr (output_text (all_lines image_bgr k),
         {| lines := all_lines image_bgr k |}).
Proof.
  unfold image_to_equations, bind, assign_lines.
  rewrite contours_loop_spec. cbn [lines app]. unfold read_lines.
  cbn [lines]. fold (contours_of image_bgr).
  fold (all_equations image_bgr k). fold (all_lines image_bgr k).
  unfold output_text, ret. destruct (all_lines image_bgr k); reflexivity.
Qed.

Lemma image_to_equations_None (k : pynum) (fr : frame) :
  image_to_equations shape0 cvtColor_BGR2GRAY GaussianBlur Canny
    findContours_LIST_SIMPLE arcLength approxPolyDP None k fr
  = inl (ValueError "Could not decode image.").
Proof. reflexivity. Qed.

End Pipeline.

End Loops.

(* ===================================================================== *)
(** * The shape of the printed numbers and lines *)
(* ===================================================================== *)

Module Text.
Import PyNum PyStr Py Spec Main Geometry Syntax Aux.
Local Open Scope string_scope.

Lemma occurs_append c a b : occurs c (a ++ b) = occurs c a || occurs c b.
Proof.
  induction a as [|d a IH]; cbn; [reflexivity|].
  now rewrite IH, orb_assoc.
Qed.

Lemma all_digits_occurs c s :
  all_digits s = true -> is_digit c = false -> occurs c s = false.
Proof.
  intros Hs Hc. induction s as [|d s IH]; cbn in *; [reflexivity|].
  apply andb_true_iff in Hs as [Hd Hs]. rewrite (IH Hs), orb_false_r.
  destruct (Ascii.eqb_spec c d) as [->|]; [congruence|reflexivity].
Qed.

(** A text in which a character other than a digit and the minus sign
    occurs is not an int literal. *)
Lemma occurs_not_int_literal c s :
  is_digit c = false -> c <> "-"%char -> occurs c s = true ->
  int_literal s = false.
Proof.
  intros Hc Hm Ho.
  destruct (int_literal s) eqn:E; [|reflexivity]. exfalso.
  assert (Hno : forall t, all_digits t = true -> occurs c t = false)
    by (intros t Ht; now apply all_digits_occurs).
  unfold int_literal in E.
  destruct s as [|d s]; [discriminate|].
  destruct (Ascii.eqb_spec d "-"%char) as [->|Hd].
  - destruct s as [|d' s].
    + cbn in Ho. rewrite orb_false_r in Ho.
      apply Ascii.eqb_eq in Ho. contradiction.
    + change (Ascii.eqb c "-" || occurs c (String d' s) = true) in Ho.
      rewrite (Hno _ E), orb_false_r in Ho.
      apply Ascii.eqb_eq in Ho. contradiction.
  - assert (E' : all_digits (String d s) = true).
    { destruct d as [[] [] [] [] [] [] [] []]; try exact E; contradiction Hd; reflexivity. }
    rewrite (Hno _ E') in Ho. discriminate.
Qed.

(** ** [str] of an int *)

Lemma all_digits_uint (d : Decimal.uint) :
  all_digits (NilEmpty.string_of_uint d) = true.
Proof. induction d; cbn; auto. Qed.

Lemma all_digits_pos (p : positive) :
  exists c r, NilZero.string_of_uint (Pos.to_uint p) = String c r
              /\ all_digits (String c r) = true.
Proof.
  pose proof (DecimalPos.Unsigned.to_uint_nonnil p) as Hn.
  pose proof (all_digits_uint (Pos.to_uint p)) as Hd.
  unfold NilZero.string_of_uint.
  destruct (Pos.to_uint p) eqn:E; try congruence; cbn in *; eauto.
Qed.

Lemma str_int_literal (n : Z) : int_literal (str_int n) = true.
Proof.
  unfold str_int. destruct n as [|p|p]; cbn [Z.to_int NilZero.string_of_int].
  - reflexivity.
  - destruct (all_digits_pos p) as (c & r & -> & Hd). unfold int_literal.
    destruct (Ascii.eqb_spec c "-"%char) as [->|Hc]; [discriminate|].
    destruct c as [[] [] [] [] [] [] [] []]; try exact Hd; contradiction Hc; reflexivity.
  - destruct (all_digits_pos p) as (c & r & -> & Hd). exact Hd.
Qed.

Lemma str_int_inj (a b : Z) : str_int a = str_int b -> a = b.
Proof.
  unfold str_int. intros E. apply DecimalZ.to_int_inj.
  assert (Hnn : forall n, Z.to_int n <> Decimal.Pos Decimal.Nil
                          /\ Z.to_int n <> Decimal.Neg Decimal.Nil).
  { intros [|p|p]; cbn; split; try discriminate;
      intros [= E']; now apply (DecimalPos.Unsigned.to_uint_nonnil p). }
  pose proof (NilZero.isi _ (proj1 (Hnn a)) (proj2 (Hnn a))) as Ha.
  pose proof (NilZero.isi _ (proj1 (Hnn b)) (proj2 (Hnn b))) as Hb.
  rewrite E in Ha. congruence.
Qed.

(** ** [repr] of a float *)

(** A positional or exponent form always shows a point or an [e]. *)
Lemma format_repr_marked (digits : string) (decpt : Z) :
  occurs "." (format_repr digits decpt) || occurs "e" (format_repr digits decpt)
  = true.
Proof.
  unfold format_repr.
  destruct ((decpt <=? -4)%Z || (16 <? decpt)%Z).
  - apply orb_true_iff. right.
    rewrite !occurs_append. cbn [occurs Ascii.eqb Bool.eqb].
    now rewrite !orb_true_r.
  - apply orb_true_iff. left.
    destruct (decpt <=? 0)%Z; [reflexivity|].
    destruct (decpt <? _)%Z; rewrite !occurs_append;
      cbn [occurs Ascii.eqb Bool.eqb]; now rewrite ?orb_true_r.
Qed.

(** No float is printed as an int: [float(12)] prints as [12.0]. *)
Lemma float_repr_not_int_literal (x : float) :
  int_literal (float_repr x) = false.
Proof.
  destruct x as [[]|[]| |s m e]; try reflexivity.
  unfold float_repr. destruct (digits_of m e) as [digits decpt].
  pose proof (format_repr_marked digits decpt) as Hm.
  apply orb_true_iff in Hm as [Hm|Hm].
  - apply (occurs_not_int_literal "."); [reflexivity|discriminate|].
    rewrite occurs_append, Hm. apply orb_true_r.
  - apply (occurs_not_int_literal "e"); [reflexivity|discriminate|].
    rewrite occurs_append, Hm. apply orb_true_r.
Qed.

(** ** Lines *)

(** Every line starts with [x], [y] or an opening parenthesis. *)
Lemma head_char_render show (e : Equation) :
  head_char (render show e) = Some "x"%char \/
  head_char (render show e) = Some "y"%char \/
  head_char (render show e) = Some "("%char.
Proof. destruct e; cbn; auto. Qed.

Lemma render_not_empty show (e : Equation) : render show e <> "".
Proof. destruct e; discriminate. Qed.

Lemma head_char_no_equations_text :
  head_char no_equations_text = Some "#"%char.
Proof. reflexivity. Qed.

(** The text of a non-empty list of lines is never the fallback line. *)
Lemma output_text_fallback_iff show (eqs : list Equation) :
  output_text (map (render show) eqs) = no_equations_text <-> eqs = [].
Proof.
  split; [|intros ->; reflexivity].
  destruct eqs as [|e eqs]; [reflexivity|]. intros E. exfalso.
  assert (Hh : head_char (output_text (map (render show) (e :: eqs)))
               = head_char (render show e)).
  { cbn [map]. unfold output_text.
    apply head_char_concat, render_not_empty. }
  rewrite E, head_char_no_equations_text in Hh.
  destruct (head_char_render show e) as [H|[H|H]]; rewrite H in Hh; discriminate.
Qed.

End Text.


(* ===================================================================== *)
(** * Rounding to a double *)
(* ===================================================================== *)

(** [float(n)] and the float subtraction of the program round to the
    nearest double, ties to even: the result of [binary_normalize] is read
    back against the interval of the reals that round to it. *)
Module Rounding.
Import PyNum PyStr Geometry.
Local Open Scope Z_scope.







(** ** Rationals in units of a power of two *)






(** ** The steps of [binary_round] *)









(** ** Rounding a signed mantissa *)








(** ** The doubles the program subtracts *)









End Rounding.

(* ===================================================================== *)
(** * Properties of the emitted equations *)
(* ===================================================================== *)

Module Correctness.
Import PyNum PyStr Py Spec Main Geometry Syntax Aux Loops Text Rounding.
Local Open Scope string_scope.
Local Open Scope list_scope.
Local Open Scope Z_scope.

(** ** Segment classification *)

(** C3. A segment with [p2.x - p1.x = 0] is emitted as the VerticalLine at
    [x = p1.x] whose range runs from the smaller to the larger of the two
    flipped rows; otherwise a segment with [p2.y - p1.y = 0] is emitted as
    the HorizontalLine at the flipped row whose range runs from the
    smaller to the larger column. *)
Theorem C3_axis_aligned_segments (H x1 y1 x2 y2 : Z) (fr : frame) :
  (x2 - x1 = 0 ->
     segment_body H (x1, y1) (x2, y2) fr
     = appended fr (render float_repr
         (VerticalLine x1 (Z.min (cartY H y1) (cartY H y2))
                          (Z.max (cartY H y1) (cartY H y2)))))
  /\
  (x2 - x1 <> 0 -> y2 - y1 = 0 ->
     segment_body H (x1, y1) (x2, y2) fr
     = appended fr (render float_repr
         (HorizontalLine (cartY H y1) (Z.min x1 x2) (Z.max x1 x2)))).
Proof.
  unfold appended, cartY. split.
  - intros Hdx. rewrite segment_body_spec.
    unfold line_of_segment, equation_of_segment.
    apply Z.eqb_eq in Hdx. rewrite Hdx.
    replace (Z.min (H - y1) (H - y2)) with (H - Z.max y1 y2) by lia.
    replace (Z.max (H - y1) (H - y2)) with (H - Z.min y1 y2) by lia.
    reflexivity.
  - intros Hdx Hdy. rewrite segment_body_spec.
    unfold line_of_segment, equation_of_segment.
    apply Z.eqb_neq in Hdx. apply Z.eqb_eq in Hdy. rewrite Hdx, Hdy.
    reflexivity.
Qed.

Lemma C3_axis_aligned_segments_witness :
  segment_body 10 (2, 3) (2, 7) Fixture.empty_frame
  = inr (tt, {| lines := ["x = 2 \left\{3 <= y <= 7\right\}"%string] |})
  /\
  segment_body 10 (2, 3) (8, 3) Fixture.empty_frame
  = inr (tt, {| lines := ["y = 7 \left\{2 <= x <= 8\right\}"%string] |}).
Proof.
  split.
  - apply (proj1 (C3_axis_aligned_segments 10 2 3 2 7 Fixture.empty_frame)).
    reflexivity.
  - apply (proj2 (C3_axis_aligned_segments 10 2 3 8 3 Fixture.empty_frame)).
    + discriminate.
    + reflexivity.
Defined.

(** C5. A degenerate segment, [p1 = p2], takes the vertical branch, which
    is tested first: it is emitted as a VerticalLine whose range has equal
    ends, and not as the HorizontalLine through the same point. *)
Theorem C5_degenerate_segment_is_vertical (H x y : Z) (fr : frame) :
  equation_of_segment H ((x, y), (x, y))
  = VerticalLine x (cartY H y) (cartY H y)
  /\ segment_body H (x, y) (x, y) fr
     = appended fr (render float_repr (VerticalLine x (cartY H y) (cartY H y)))
  /\ segment_body H (x, y) (x, y) fr
     <> appended fr (render float_repr (HorizontalLine (cartY H y) x x)).
Proof.
  assert (E : equation_of_segment H ((x, y), (x, y))
              = VerticalLine x (cartY H y) (cartY H y)).
  { unfold equation_of_segment, cartY. rewrite Z.sub_diag. cbn [Z.eqb].
    now rewrite Z.max_id, Z.min_id. }
  split; [exact E|].
  rewrite segment_body_spec. unfold line_of_segment.
  change (render float_repr (equation_of_segment H (x, y, (x, y))))
    with (render float_repr (equation_of_segment H ((x, y), (x, y)))).
  rewrite E.
  split; [reflexivity|].
  unfold appended. intros [= Heq]. apply app_inv_head in Heq.
  discriminate Heq.
Qed.

(** ** The coordinate flip *)




(** ** Curves *)

(** C4, as the code has it.  A segment that is neither vertical nor
    horizontal appends exactly one line, a ParametricCurve.  Its control
    coefficients are the double-precision quotients [(2 p1 + p2) / 3.0]
    and [(p1 + 2 p2) / 3.0]; the y coefficients are the flipped rows of
    the end points and [float(H)] minus the control rows; each axis is
    written as the cubic blend with the coefficients printed by Python's
    float [repr].  For p1 = (0,0), p2 = (10,10) the x expression is the one
    spelled out, with the control coefficients printed in full. *)
Theorem C4_slanted_segment_curve (H x1 y1 x2 y2 : Z) (fr : frame) :
  (x2 - x1 <> 0 -> y2 - y1 <> 0 ->
     segment_body H (x1, y1) (x2, y2) fr
     = appended fr (render float_repr
         (ParametricCurve
            (Cubic (float_of_int x1) (div3 (2 * x1 + x2))
                   (div3 (x1 + 2 * x2)) (float_of_int x2))
            (Cubic (float_of_int (cartY H y1))
                   (fsub (float_of_int H) (div3 (2 * y1 + y2)))
                   (fsub (float_of_int H) (div3 (y1 + 2 * y2)))
                   (float_of_int (cartY H y2))))))
  /\ fst (bezier_to_equations
            (PyInt 0, PyInt 0)
            (PyFloat (div3 (2 * 0 + 10)), PyFloat (div3 (2 * 0 + 10)))
            (PyFloat (div3 (0 + 2 * 10)), PyFloat (div3 (0 + 2 * 10)))
            (PyInt 10, PyInt 10) (PyInt H))
     = "((1-t)^3*0.0 + 3*(1-t)^2*t*3.3333333333333335 + 3*(1-t)*t^2*6.666666666666667 + t^3*10.0)"%string.
Proof.
  split.
  - intros Hdx Hdy. rewrite segment_body_spec.
    unfold line_of_segment, equation_of_segment.
    apply Z.eqb_neq in Hdx. apply Z.eqb_neq in Hdy. rewrite Hdx, Hdy.
    reflexivity.
  - rewrite bezier_to_equations_int. cbn [fst]. vm_compute. reflexivity.
Qed.

Lemma C4_slanted_segment_curve_witness :
  segment_body 20 (0, 0) (10, 10) Fixture.empty_frame
  = inr (tt, {| lines :=
      ["(((1-t)^3*0.0 + 3*(1-t)^2*t*3.3333333333333335 + 3*(1-t)*t^2*6.666666666666667 + t^3*10.0), (1-t)^3*20.0 + 3*(1-t)^2*t*16.666666666666668 + 3*(1-t)*t^2*13.333333333333332 + t^3*10.0)"%string] |}).
Proof.
  rewrite (proj1 (C4_slanted_segment_curve 20 0 0 10 10 Fixture.empty_frame));
    [vm_compute; reflexivity | discriminate | discriminate].
Defined.

(** C4 as stated fails at its own example: the control coefficients the
    program computes for p1 = (0,0), p2 = (10,10) are doubles, neither the
    exact thirds [p1 + (p2 - p1)/3] and [p1 + 2 (p2 - p1)/3] nor the
    numbers 3.33 and 6.67, and they are not printed as 3.33 and 6.67. *)
Lemma C4_counterexample :
  (float_value (div3 (2 * 0 + 10)) = Some (7505999378950827 # 2251799813685248)
   /\ ~ (7505999378950827 # 2251799813685248 == control1 0 10)%Q
   /\ ~ (7505999378950827 # 2251799813685248 == 333 # 100)%Q
   /\ float_repr (div3 (2 * 0 + 10)) = "3.3333333333333335"%string
   /\ float_repr (div3 (2 * 0 + 10)) <> "3.33"%string)
  /\
  (float_value (div3 (0 + 2 * 10)) = Some (7505999378950827 # 1125899906842624)
   /\ ~ (7505999378950827 # 1125899906842624 == control2 0 10)%Q
   /\ ~ (7505999378950827 # 1125899906842624 == 667 # 100)%Q
   /\ float_repr (div3 (0 + 2 * 10)) = "6.666666666666667"%string
   /\ float_repr (div3 (0 + 2 * 10)) <> "6.67"%string).
Proof.
  split; (split; [vm_compute; reflexivity|]);
    (split; [unfold Qeq; vm_compute; discriminate|]);
    (split; [unfold Qeq; vm_compute; discriminate|]);
    (split; [vm_compute; reflexivity|]);
    intros E; vm_compute in E; discriminate E.
Qed.

(** ** The text format *)

(** C1 as stated fails on a curve: the coefficients 0, 1, 2, 3 and 10, 9,
    8, 7 of the segment (0,0)-(3,3) in an image of height 10 are integral,
    and the program prints them as floats, [0.0], [1.0], ..., where the
    contract's rule, ints where integral, gives [0], [1], .... *)
Lemma C1_counterexample :
  segment_body 10 (0, 0) (3, 3) Fixture.empty_frame
  = inr (tt, {| lines :=
      ["(((1-t)^3*0.0 + 3*(1-t)^2*t*1.0 + 3*(1-t)*t^2*2.0 + t^3*3.0), (1-t)^3*10.0 + 3*(1-t)^2*t*9.0 + 3*(1-t)*t^2*8.0 + t^3*7.0)"%string] |})
  /\ render show_value (equation_of_segment 10 ((0, 0), (3, 3)))
     = "(((1-t)^3*0 + 3*(1-t)^2*t*1 + 3*(1-t)*t^2*2 + t^3*3), (1-t)^3*10 + 3*(1-t)^2*t*9 + 3*(1-t)*t^2*8 + t^3*7)"%string
  /\ segment_body 10 (0, 0) (3, 3) Fixture.empty_frame
     <> appended Fixture.empty_frame
          (render show_value (equation_of_segment 10 ((0, 0), (3, 3)))).
Proof.
  split; [vm_compute; reflexivity|].
  split; [vm_compute; reflexivity|].
  intros E. vm_compute in E. discriminate E.
Qed.

(** ** Segments of a polygon *)

(** C6. A polygon with V >= 2 vertices has exactly V segments: the V - 1
    pairs of neighbours and the wrap-around pair (last, first).  The inner
    loop visits exactly these, in order, and appends one line for each, V
    lines in all. *)
Theorem C6_cyclic_segments (H : Z) (approx : contour) (fr : frame) :
  (2 <= List.length approx)%nat ->
  List.length (segments approx) = List.length approx
  /\ (forall i, (i + 1 < List.length approx)%nat ->
        nth_error (segments approx) i
        = Some (nth i approx (0, 0), nth (i + 1) approx (0, 0)))
  /\ nth_error (segments approx) (List.length approx - 1)
     = Some (nth (List.length approx - 1) approx (0, 0), nth 0 approx (0, 0))
  /\ segments_loop H approx fr
     = inr (tt, {| lines := lines fr
                            ++ map (line_of_segment H) (segments approx) |})
  /\ List.length (map (line_of_segment H) (segments approx))
     = List.length approx.
Proof.
  intros HV.
  split; [apply length_segments|].
  split.
  { intros i Hi. apply nth_error_segments.
    - apply nth_error_nth'. clear - Hi. lia.
    - rewrite Nat.mod_small by exact Hi. now apply nth_error_nth'. }
  split.
  { apply nth_error_segments.
    - apply nth_error_nth'. clear - HV. lia.
    - replace (List.length approx - 1 + 1)%nat with (List.length approx)
        by (clear - HV; lia).
      rewrite Nat.Div0.mod_same. apply nth_error_nth'. clear - HV. lia. }
  split; [apply segments_loop_spec|].
  rewrite length_map. apply length_segments.
Qed.

Lemma C6_cyclic_segments_witness :
  segments Fixture.triangle
  = [((0, 0), (0, 5)); ((0, 5), (5, 5)); ((5, 5), (0, 0))]
  /\ List.length (segments Fixture.triangle) = 3%nat
  /\ nth_error (segments Fixture.triangle) 2 = Some ((5, 5), (0, 0))
  /\ segments_loop 10 Fixture.triangle Fixture.empty_frame
     = inr (tt, {| lines := map (line_of_segment 10) (segments Fixture.triangle) |}).
Proof.
  assert (HV : (2 <= List.length Fixture.triangle)%nat) by (cbn; lia).
  destruct (C6_cyclic_segments 10 Fixture.triangle Fixture.empty_frame HV)
    as (Hlen & _ & Hwrap & Hloop & _).
  split; [reflexivity|].
  split; [exact Hlen|].
  split; [exact Hwrap|exact Hloop].
Defined.

(** ** The whole call *)

Section Pipeline.
Variable ndarray : Type.
Variable shape0 : ndarray -> Z.
Variable cvtColor_BGR2GRAY : ndarray -> ndarray.
Variable GaussianBlur : ndarray -> Z * Z -> Z -> ndarray.
Variable Canny : ndarray -> Z -> Z -> ndarray.
Variable findContours_LIST_SIMPLE : ndarray -> list contour.
Variable arcLength : contour -> bool -> float.
Variable approxPolyDP : contour -> float -> bool -> contour.

Local Abbreviation run :=
  (image_to_equations shape0 cvtColor_BGR2GRAY GaussianBlur Canny
     findContours_LIST_SIMPLE arcLength approxPolyDP).
Local Abbreviation contours :=
  (contours_of cvtColor_BGR2GRAY GaussianBlur Canny findContours_LIST_SIMPLE).
Local Abbreviation equations :=
  (all_equations shape0 cvtColor_BGR2GRAY GaussianBlur Canny
     findContours_LIST_SIMPLE arcLength approxPolyDP).
Local Abbreviation body := (contour_body arcLength approxPolyDP).

(** C1, as the code has it.  A call on a decoded image returns the
    fallback line or the newline-joined renderings of a list of
    equations, each in the literal syntax of its kind.  The values of a
    vertical or horizontal line are printed as decimal ints.  The
    coefficients of a curve are printed by Python's float [repr], which
    never yields an int literal: an integral coefficient keeps its
    [.0].  The x expression carries its own parentheses, the y
    expression does not. *)
Theorem C1_output_syntax (image_bgr : ndarray) (k : pynum) (fr : frame) :
  exists eqs : list Equation,
    run (Some image_bgr) k fr
    = inr (output_text (map (render float_repr) eqs),
           {| lines := map (render float_repr) eqs |})
    /\ (forall n : Z, int_literal (str_int n) = true)
    /\ (forall c : float, int_literal (float_repr c) = false)
    /\ (forall xs ys : cubic,
          render float_repr (ParametricCurve xs ys)
          = ("(" ++ "(" ++ blend float_repr xs ++ ")" ++ ", "
             ++ blend float_repr ys ++ ")")%string).
Proof.
  exists (equations image_bgr k).
  split; [apply image_to_equations_spec|].
  split; [apply str_int_literal|].
  split; [apply float_repr_not_int_literal|].
  intros xs ys. cbn [render]. now rewrite !Aux.append_assoc.
Qed.

(** C8. The text returned is the fallback line, the literal text spelled
    out below, exactly when no equation was produced over all contours;
    otherwise it is the lines with one newline character, code 10,
    between each two of them.  An image in which no contour is found yields
    the fallback line. *)
Theorem C8_fallback_iff_no_equations
    (image_bgr : ndarray) (k : pynum) (fr : frame) :
  exists text : string,
    run (Some image_bgr) k fr
    = inr (text, {| lines := map (render float_repr) (equations image_bgr k) |})
    /\ (text = "# No contours/equations were detected. Try a clearer or higher-contrast image."%string
        <-> equations image_bgr k = [])
    /\ (equations image_bgr k <> [] ->
          text = String.concat (String (ascii_of_nat 10) EmptyString)
                   (map (render float_repr) (equations image_bgr k)))
    /\ (contours image_bgr = [] ->
          text = "# No contours/equations were detected. Try a clearer or higher-contrast image."%string).
Proof.
  exists (output_text (map (render float_repr) (equations image_bgr k))).
  split; [apply image_to_equations_spec|].
  split; [apply output_text_fallback_iff|].
  split.
  - intros Hne. destruct (equations image_bgr k); [congruence|reflexivity].
  - intros Hc. apply output_text_fallback_iff.
    unfold all_equations. now rewrite Hc.
Qed.

(** C9. A contour with fewer than 2 points, or whose simplification has
    fewer than 2 vertices, leaves the frame as it found it and raises
    nothing; the loop over the contours goes on, and ends normally with
    the equations of the other contours, in order. *)
Theorem C9_degenerate_contours_are_skipped
    (H : Z) (k : pynum) (c : contour) (before after : list contour)
    (fr : frame) :
  (List.length c < 2)%nat \/
  (List.length
     (approxPolyDP c (fmul (py_float k) (arcLength c true)) true) < 2)%nat ->
  body H k c fr = inr (tt, fr)
  /\ for_each (before ++ c :: after) (body H k) fr
     = for_each (before ++ after) (body H k) fr
  /\ for_each (before ++ c :: after) (body H k) fr
     = inr (tt, {| lines := lines fr
                     ++ map (render float_repr)
                          (equations_of arcLength approxPolyDP H k before
                           ++ equations_of arcLength approxPolyDP H k after) |}).
Proof.
  intros Hc.
  assert (E : contour_equations arcLength approxPolyDP H k c = []).
  { unfold contour_equations. destruct Hc as [Hc|Hc].
    - apply Nat.ltb_lt in Hc. now rewrite Hc.
    - apply Nat.ltb_lt in Hc. cbv zeta. rewrite Hc.
      now destruct (List.length c <? 2)%nat. }
  assert (Eeq : equations_of arcLength approxPolyDP H k (before ++ c :: after)
                = equations_of arcLength approxPolyDP H k before
                  ++ equations_of arcLength approxPolyDP H k after).
  { unfold equations_of. rewrite flat_map_app. cbn [flat_map].
    now rewrite E. }
  split; [|split].
  - rewrite contour_body_spec, E. cbn [map]. rewrite app_nil_r.
    destruct fr; reflexivity.
  - rewrite !contours_loop_spec, Eeq.
    unfold equations_of. now rewrite flat_map_app.
  - now rewrite contours_loop_spec, Eeq.
Qed.

End Pipeline.

Lemma C8_fallback_iff_no_equations_witness :
  outcome (Fixture.run (Some Fixture.picture) default_inaccuracy_value
             Fixture.empty_frame)
  = inr ("x = 0 \left\{5 <= y <= 10\right\}"
         ++ String "010"%char
              ("y = 5 \left\{0 <= x <= 5\right\}"
               ++ String "010"%char
                    "(((1-t)^3*5.0 + 3*(1-t)^2*t*3.3333333333333335 + 3*(1-t)*t^2*1.6666666666666667 + t^3*0.0), (1-t)^3*5.0 + 3*(1-t)^2*t*6.666666666666666 + 3*(1-t)*t^2*8.333333333333334 + t^3*10.0)"))%string
  /\ outcome (Fixture.run (Some Fixture.dusty) default_inaccuracy_value
                Fixture.empty_frame)
     = inr "# No contours/equations were detected. Try a clearer or higher-contrast image."%string
  /\ outcome (Fixture.run (Some Fixture.blank) default_inaccuracy_value
                Fixture.empty_frame)
     = inr "# No contours/equations were detected. Try a clearer or higher-contrast image."%string.
Proof.
  split; [|split].
  - destruct (C8_fallback_iff_no_equations Fixture.ndarray
                Fixture.shape0 Fixture.cvtColor_BGR2GRAY Fixture.GaussianBlur
                Fixture.Canny Fixture.findContours_LIST_SIMPLE
                Fixture.arcLength Fixture.approxPolyDP
                Fixture.picture default_inaccuracy_value Fixture.empty_frame)
      as (text & Hrun & _ & Hjoin & _).
    unfold Fixture.run. rewrite Hrun. cbn [outcome]. f_equal.
    rewrite Hjoin; [vm_compute; reflexivity | vm_compute; discriminate].
  - destruct (C8_fallback_iff_no_equations Fixture.ndarray
                Fixture.shape0 Fixture.cvtColor_BGR2GRAY Fixture.GaussianBlur
                Fixture.Canny Fixture.findContours_LIST_SIMPLE
                Fixture.arcLength Fixture.approxPolyDP
                Fixture.dusty default_inaccuracy_value Fixture.empty_frame)
      as (text & Hrun & Hiff & _ & _).
    unfold Fixture.run. rewrite Hrun. cbn [outcome]. f_equal.
    apply Hiff. reflexivity.
  - destruct (C8_fallback_iff_no_equations Fixture.ndarray
                Fixture.shape0 Fixture.cvtColor_BGR2GRAY Fixture.GaussianBlur
                Fixture.Canny Fixture.findContours_LIST_SIMPLE
                Fixture.arcLength Fixture.approxPolyDP
                Fixture.blank default_inaccuracy_value Fixture.empty_frame)
      as (text & Hrun & _ & _ & Hblank).
    unfold Fixture.run. rewrite Hrun. cbn [outcome]. f_equal.
    apply Hblank. reflexivity.
Defined.

Lemma C9_degenerate_contours_are_skipped_witness :
  for_each ([Fixture.triangle] ++ Fixture.speck :: [Fixture.triangle])
    (contour_body Fixture.arcLength Fixture.approxPolyDP 10
       default_inaccuracy_value) Fixture.empty_frame
  = for_each ([Fixture.triangle] ++ [Fixture.triangle])
      (contour_body Fixture.arcLength Fixture.approxPolyDP 10
         default_inaccuracy_value) Fixture.empty_frame.
Proof.
  assert (Hshort : (List.length Fixture.speck < 2)%nat) by (cbn; lia).
  exact (proj1 (proj2 (C9_degenerate_contours_are_skipped
           Fixture.arcLength Fixture.approxPolyDP 10 default_inaccuracy_value
           Fixture.speck [Fixture.triangle] [Fixture.triangle]
           Fixture.empty_frame (or_introl Hshort)))).
Defined.

End Correctness.

(* ===================================================================== *)
(** * Further properties of the program *)
(* ===================================================================== *)

Module Further.
Import PyNum PyStr Py Spec Main Geometry Syntax Aux Loops Text.
Local Open Scope string_scope.
Local Open Scope list_scope.
Local Open Scope Z_scope.

Lemma holds_on_sound (f : Z -> bool) (depth : nat) :
  forall lo, holds_on f lo depth = true ->
  forall n, lo <= n < lo + 2 ^ Z.of_nat depth -> f n = true.
Proof.
  induction depth as [|d IH]; intros lo Hall n Hn; cbn [holds_on] in Hall.
  - replace n with lo by (cbn in Hn; lia). exact Hall.
  - apply andb_true_iff in Hall as [Hlow Hhigh].
    rewrite Nat2Z.inj_succ, Z.pow_succ_r in Hn by lia.
    destruct (Z_lt_le_dec n (lo + 2 ^ Z.of_nat d)) as [Hlt|Hge].
    + apply (IH lo Hlow). lia.
    + apply (IH (lo + 2 ^ Z.of_nat d) Hhigh). lia.
Qed.

(** X1. The control coefficients are the exact thirds rounded once: for
    every int [n] with [-8192 <= n < 8192], which covers [2 p1 + p2] and
    [p1 + 2 p2] for pixel coordinates below 2731, [float(n)] is exact and
    [n / 3.0] is the double nearest to [n/3]. *)
Theorem X1_control_coefficients_are_rounded_thirds (n : Z) :
  -8192 <= n < 8192 ->
  exact_double (float_of_int n) n = true
  /\ nearest_double (div3 n) (n # 3) = true.
Proof.
  intros Hn. apply andb_true_iff.
  change (third_ok n = true).
  apply (holds_on_sound third_ok 14 (-8192)); [|cbn; lia].
  vm_compute. reflexivity.
Qed.

Lemma X1_control_coefficients_are_rounded_thirds_witness :
  exact_double (float_of_int 10) 10 = true
  /\ nearest_double (div3 10) (10 # 3) = true.
Proof.
  apply (X1_control_coefficients_are_rounded_thirds 10). lia.
Defined.

(** X2. The polygon of an axis-aligned square with positive side, its
    corners listed in either direction and from any corner, yields exactly
    four lines and no curve: the HorizontalLines of its top and bottom
    edges and the VerticalLines of its right and left edges, with the
    bounds flipped, in the order the sides are visited. *)
Theorem X2_square_polygon
    (H x y side : Z) (backwards : bool) (n : nat) (fr : frame) :
  0 < side -> (n < 4)%nat ->
  segments_loop H (listed backwards n (square x y side)) fr
  = inr (tt, {| lines := lines fr ++ map (render float_repr)
      (rotate n
         (if backwards then
            [ HorizontalLine (cartY H (y + side)) x (x + side);
              VerticalLine (x + side) (cartY H (y + side)) (cartY H y);
              HorizontalLine (cartY H y) x (x + side);
              VerticalLine x (cartY H (y + side)) (cartY H y) ]
          else
            [ HorizontalLine (cartY H y) x (x + side);
              VerticalLine (x + side) (cartY H (y + side)) (cartY H y);
              HorizontalLine (cartY H (y + side)) x (x + side);
              VerticalLine x (cartY H (y + side)) (cartY H y) ])) |}).
Proof.
  intros Hside Hn. rewrite segments_loop_spec.
  assert (E1 : (x + side - x =? 0) = false) by (apply Z.eqb_neq; lia).
  assert (E2 : (x - (x + side) =? 0) = false) by (apply Z.eqb_neq; lia).
  assert (Hcases : n = 0%nat \/ n = 1%nat \/ n = 2%nat \/ n = 3%nat)
    by (clear - Hn; lia).
  destruct Hcases as [->|[->|[->| ->]]]; destruct backwards;
    unfold listed, rotate, square, segments, cartY;
    cbn [rev tl firstn skipn app combine map];
    unfold line_of_segment, equation_of_segment;
    rewrite ?E1, ?E2, ?Z.sub_diag; cbn [Z.eqb];
    rewrite ?(Z.max_r y (y + side)), ?(Z.min_l y (y + side)),
      ?(Z.max_l (y + side) y), ?(Z.min_r (y + side) y),
      ?(Z.max_r x (x + side)), ?(Z.min_l x (x + side)),
      ?(Z.max_l (x + side) x), ?(Z.min_r (x + side) x) by lia;
    reflexivity.
Qed.

Lemma X2_square_polygon_witness :
  listed true 3 (square 4 4 3) = [(4, 4); (4, 7); (7, 7); (7, 4)]
  /\ segments_loop 10 [(4, 4); (4, 7); (7, 7); (7, 4)] Fixture.empty_frame
     = inr (tt, {| lines :=
         ["x = 4 \left\{3 <= y <= 6\right\}"%string;
          "y = 3 \left\{4 <= x <= 7\right\}"%string;
          "x = 7 \left\{3 <= y <= 6\right\}"%string;
          "y = 6 \left\{4 <= x <= 7\right\}"%string] |})
  /\ segments_loop 20 (square 0 0 10) Fixture.empty_frame
     = inr (tt, {| lines :=
         ["y = 20 \left\{0 <= x <= 10\right\}"%string;
          "x = 10 \left\{10 <= y <= 20\right\}"%string;
          "y = 10 \left\{0 <= x <= 10\right\}"%string;
          "x = 0 \left\{10 <= y <= 20\right\}"%string] |}).
Proof.
  split; [reflexivity|]. split.
  - apply (X2_square_polygon 10 4 4 3 true 3 Fixture.empty_frame); lia.
  - apply (X2_square_polygon 20 0 0 10 false 0 Fixture.empty_frame); lia.
Defined.

Section Pipeline.
Variable ndarray : Type.
Variable shape0 : ndarray -> Z.
Variable cvtColor_BGR2GRAY : ndarray -> ndarray.
Variable GaussianBlur : ndarray -> Z * Z -> Z -> ndarray.
Variable Canny : ndarray -> Z -> Z -> ndarray.
Variable findContours_LIST_SIMPLE : ndarray -> list contour.
Variable arcLength : contour -> bool -> float.
Variable approxPolyDP : contour -> float -> bool -> contour.

(** X3. The lines come in the order the contours are visited: the
    equations of a list of contours are those of its first part followed
    by those of the rest, and the loop over the whole list leaves the lines
    of the first part before the lines of the rest. *)
Theorem X3_lines_follow_contour_order
    (H : Z) (k : pynum) (first rest : list contour) (fr : frame) :
  equations_of arcLength approxPolyDP H k (first ++ rest)
  = equations_of arcLength approxPolyDP H k first
    ++ equations_of arcLength approxPolyDP H k rest
  /\ for_each (first ++ rest) (contour_body arcLength approxPolyDP H k) fr
     = inr (tt, {| lines :=
         (lines fr
          ++ map (render float_repr) (equations_of arcLength approxPolyDP H k first))
         ++ map (render float_repr) (equations_of arcLength approxPolyDP H k rest) |}).
Proof.
  assert (E : equations_of arcLength approxPolyDP H k (first ++ rest)
              = equations_of arcLength approxPolyDP H k first
                ++ equations_of arcLength approxPolyDP H k rest)
    by (unfold equations_of; apply flat_map_app).
  split; [exact E|].
  now rewrite contours_loop_spec, E, map_app, app_assoc.
Qed.

End Pipeline.

(** ** Reading a line back *)

Lemma split_at_delimiter (c : ascii) (s1 s2 r1 r2 : string) :
  occurs c s1 = false -> occurs c s2 = false ->
  (s1 ++ String c r1 = s2 ++ String c r2)%string ->
  s1 = s2 /\ r1 = r2.
Proof.
  revert s2. induction s1 as [|d1 s1 IH]; intros [|d2 s2] H1 H2 E; cbn in *.
  - injection E as ->. now split.
  - injection E as -> _. now rewrite Ascii.eqb_refl in H2.
  - injection E as -> _. now rewrite Ascii.eqb_refl in H1.
  - injection E as -> E.
    apply orb_false_iff in H1 as [_ H1]. apply orb_false_iff in H2 as [_ H2].
    destruct (IH s2 H1 H2 E) as [-> ->]. now split.
Qed.

Lemma occurs_str_int (c : ascii) (n : Z) :
  is_digit c = false -> c <> "-"%char -> occurs c (str_int n) = false.
Proof.
  intros Hc Hm. destruct (occurs c (str_int n)) eqn:E; [|reflexivity].
  pose proof (occurs_not_int_literal c (str_int n) Hc Hm E) as Hno.
  now rewrite str_int_literal in Hno.
Qed.

(** X4. The text of a vertical or horizontal line determines its equation:
    two such equations with the same rendering are the same equation. *)
Theorem X4_line_text_determines_equation
    (show : float -> string) (e1 e2 : Equation) :
  (forall xs ys, e1 <> ParametricCurve xs ys) ->
  (forall xs ys, e2 <> ParametricCurve xs ys) ->
  render show e1 = render show e2 -> e1 = e2.
Proof.
  assert (Hsp : forall n, occurs " " (str_int n) = false)
    by (intros n; apply occurs_str_int; [reflexivity|discriminate]).
  assert (Hbs : forall n, occurs "\" (str_int n) = false)
    by (intros n; apply occurs_str_int; [reflexivity|discriminate]).
  assert (Hthree : forall a b c a' b' c' (u v w : string),
            (str_int a ++ String " " (u ++ str_int b ++ String " " (v ++ str_int c ++ String "\" w))
             = str_int a' ++ String " " (u ++ str_int b' ++ String " " (v ++ str_int c' ++ String "\" w)))%string ->
            a = a' /\ b = b' /\ c = c').
  { intros a b c a' b' c' u v w E.
    apply split_at_delimiter in E as [Ea E]; [|apply Hsp|apply Hsp].
    apply str_int_inj in Ea.
    assert (Hcut : forall (p : string) x y, (p ++ x = p ++ y)%string -> x = y).
    { intros p. induction p as [|ch p IHp]; intros x y Exy; cbn in Exy;
        [exact Exy|]. injection Exy as Exy. now apply IHp. }
    apply Hcut in E.
    apply split_at_delimiter in E as [Eb E]; [|apply Hsp|apply Hsp].
    apply str_int_inj in Eb.
    apply Hcut in E.
    apply split_at_delimiter in E as [Ec _]; [|apply Hbs|apply Hbs].
    apply str_int_inj in Ec. now repeat split. }
  intros Hc1 Hc2 E.
  destruct e1 as [x y0 y1|y x0 x1|xs ys]; [| |now destruct (Hc1 xs ys)];
    destruct e2 as [x' y0' y1'|y' x0' x1'|xs' ys']; try (now destruct (Hc2 xs' ys'));
    try discriminate E.
  - cbn [render] in E. cbn [append] in E. injection E as E.
    destruct (Hthree x y0 y1 x' y0' y1' "\left\{" "<= y <= " "right\}" E)
      as (-> & -> & ->). reflexivity.
  - cbn [render] in E. cbn [append] in E. injection E as E.
    destruct (Hthree y x0 x1 y' x0' x1' "\left\{" "<= x <= " "right\}" E)
      as (-> & -> & ->). reflexivity.
Qed.

Lemma X4_line_text_determines_equation_witness :
  render float_repr (HorizontalLine 7 2 8)
  = "y = 7 \left\{2 <= x <= 8\right\}"%string
  /\ HorizontalLine (10 - 3) (Z.min 2 8) (Z.max 2 8) = HorizontalLine 7 2 8.
Proof.
  split; [reflexivity|].
  apply (X4_line_text_determines_equation float_repr);
    [discriminate | discriminate | reflexivity].
Defined.

End Further.

(* ===================================================================== *)
(** * The emitted text, read back *)
(* ===================================================================== *)

Module ReadingFacts.
Import PyNum PyStr Py Spec Main Geometry Syntax Reading Aux Loops Text.
Local Open Scope string_scope.
Local Open Scope Z_scope.

(** ** Characters of a printed float *)

Lemma all_float_chars_append (a b : string) :
  all_float_chars (a ++ b) = all_float_chars a && all_float_chars b.
Proof.
  induction a as [|c a IH]; cbn; [reflexivity|].
  now rewrite IH, andb_assoc.
Qed.

Lemma all_digits_float_chars (s : string) :
  all_digits s = true -> all_float_chars s = true.
Proof.
  induction s as [|c s IH]; cbn; [reflexivity|].
  intros H. apply andb_true_iff in H as [Hc Hs].
  unfold float_char. now rewrite Hc, (IH Hs).
Qed.

Lemma all_float_chars_substring (n m : nat) (s : string) :
  all_float_chars s = true -> all_float_chars (substring n m s) = true.
Proof.
  revert n m. induction s as [|c s IH]; intros n m H.
  - destruct n, m; reflexivity.
  - cbn in H. apply andb_true_iff in H as [Hc Hs].
    destruct n as [|n]; [destruct m as [|m]|]; cbn.
    + reflexivity.
    + now rewrite Hc, IH.
    + now apply IH.
Qed.

Lemma all_float_chars_zeros (n : nat) : all_float_chars (zeros n) = true.
Proof. induction n as [|n IH]; cbn; [reflexivity|exact IH]. Qed.

Lemma all_float_chars_exp_text (x : Z) : all_float_chars (exp_text x) = true.
Proof.
  unfold exp_text.
  assert (Ha : all_float_chars
                 (NilZero.string_of_uint (N.to_uint (Z.to_N (Z.abs x)))) = true).
  { apply all_digits_float_chars. unfold NilZero.string_of_uint.
    destruct (N.to_uint _); try reflexivity; apply all_digits_uint. }
  rewrite all_float_chars_append.
  destruct (x <? 0), (Z.abs x <? 10); cbn; exact Ha.
Qed.

Lemma all_float_chars_format_repr (digits : string) (decpt : Z) :
  all_float_chars digits = true ->
  all_float_chars (format_repr digits decpt) = true.
Proof.
  intros Hd. unfold format_repr.
  destruct ((decpt <=? -4) || (16 <? decpt)).
  - rewrite !all_float_chars_append, all_float_chars_substring by exact Hd.
    rewrite all_float_chars_exp_text.
    destruct (1 <? _); [|reflexivity].
    rewrite all_float_chars_append, all_float_chars_substring by exact Hd.
    reflexivity.
  - destruct (decpt <=? 0).
    + rewrite !all_float_chars_append, all_float_chars_zeros, Hd. reflexivity.
    + destruct (decpt <? _).
      * rewrite !all_float_chars_append, !all_float_chars_substring by exact Hd.
        reflexivity.
      * rewrite !all_float_chars_append, all_float_chars_zeros, Hd. reflexivity.
Qed.

Lemma all_float_chars_repr (x : float) : all_float_chars (float_repr x) = true.
Proof.
  destruct x as [[]|[]| |s m e]; try reflexivity.
  unfold float_repr, digits_of.
  destruct (shortest m e _ 1 17) as [q k].
  rewrite all_float_chars_append, all_float_chars_format_repr.
  - now destruct s.
  - apply all_digits_float_chars, all_digits_uint.
Qed.

Lemma occurs_all_float_chars (c : ascii) (s : string) :
  all_float_chars s = true -> float_char c = false -> occurs c s = false.
Proof.
  intros Hs Hc. induction s as [|d s IH]; cbn in *; [reflexivity|].
  apply andb_true_iff in Hs as [Hd Hs]. rewrite (IH Hs), orb_false_r.
  destruct (Ascii.eqb_spec c d) as [->|]; [congruence|reflexivity].
Qed.

(** ** Lines hold no newline *)

Lemma newline_not_in_str_int (n : Z) : occurs newline_char (str_int n) = false.
Proof.
  destruct (occurs newline_char (str_int n)) eqn:E; [|reflexivity].
  assert (Hno : int_literal (str_int n) = false)
    by (apply (occurs_not_int_literal newline_char);
        [reflexivity | discriminate | exact E]).
  now rewrite str_int_literal in Hno.
Qed.

Lemma newline_not_in_repr (x : float) : occurs newline_char (float_repr x) = false.
Proof.
  apply occurs_all_float_chars; [apply all_float_chars_repr|reflexivity].
Qed.

Lemma newline_not_in_render (e : Equation) :
  occurs newline_char (render float_repr e) = false.
Proof.
  destruct e as [x y0 y1|y x0 x1|[a0 a1 a2 a3] [c0 c1 c2 c3]];
    unfold render, blend; cbn [b0 b1 b2 b3];
    rewrite ?occurs_append, ?newline_not_in_str_int, ?newline_not_in_repr;
    reflexivity.
Qed.

(** ** Splitting a joined text *)

Lemma split_at_clean (sep : ascii) (l : string) :
  occurs sep l = false -> split_at sep l = [l].
Proof.
  induction l as [|c l IH]; cbn; [reflexivity|]. intros H.
  apply orb_false_iff in H as [Hc Hl]. rewrite Ascii.eqb_sym, Hc, (IH Hl).
  reflexivity.
Qed.

Lemma split_at_first (sep : ascii) (l rest : string) :
  occurs sep l = false ->
  split_at sep (l ++ String sep rest) = l :: split_at sep rest.
Proof.
  induction l as [|c l IH]; cbn.
  - intros _. now rewrite Ascii.eqb_refl.
  - intros H. apply orb_false_iff in H as [Hc Hl].
    rewrite Ascii.eqb_sym, Hc, (IH Hl). reflexivity.
Qed.

Lemma split_at_concat (sep : ascii) (l : string) (ls : list string) :
  Forall (fun l => occurs sep l = false) (l :: ls) ->
  split_at sep (String.concat (String sep EmptyString) (l :: ls)) = l :: ls.
Proof.
  revert l. induction ls as [|l' ls IH]; intros l H.
  - cbn. apply split_at_clean. now inversion H.
  - inversion H as [|? ? Hl Hrest]; subst.
    change (String.concat (String sep EmptyString) (l :: l' :: ls))
      with (l ++ String sep (String.concat (String sep EmptyString) (l' :: ls))).
    rewrite split_at_first by exact Hl. now rewrite IH.
Qed.

End ReadingFacts.

(* ===================================================================== *)
(** * Properties of the rest of the program *)
(* ===================================================================== *)

Module Coverage.
Import PyNum PyStr Py Spec Main Geometry Syntax Reading Web.
Import Aux Loops Text ReadingFacts.
Local Open Scope string_scope.
Local Open Scope list_scope.
Local Open Scope Z_scope.

Lemma output_text_not_empty (eqs : list Equation) :
  output_text (map (render float_repr) eqs) <> ""%string.
Proof.
  destruct eqs as [|e es]; [discriminate|]. intros E.
  pose proof (head_char_concat newline (render float_repr e)
                (map (render float_repr) es) (render_not_empty _ e)) as Hh.
  cbn [map output_text] in E. rewrite E in Hh. cbn in Hh.
  destruct (head_char_render float_repr e) as [Hc|[Hc|Hc]];
    rewrite Hc in Hh; discriminate.
Qed.

Lemma well_ranged_segment (H : Z) (s : point * point) :
  well_ranged (equation_of_segment H s).
Proof.
  destruct s as [[x1 y1] [x2 y2]]. unfold equation_of_segment.
  destruct (Z.eqb_spec (x2 - x1) 0); [cbn; lia|].
  destruct (Z.eqb_spec (y2 - y1) 0); cbn; [lia|exact I].
Qed.

Lemma reversed_segment (H : Z) (p q : point) :
  equation_of_segment H (q, p)
  = reversed_equation (equation_of_segment H (p, q)).
Proof.
  destruct p as [x1 y1], q as [x2 y2]. unfold equation_of_segment.
  destruct (Z.eqb_spec (x2 - x1) 0) as [Hx|Hx];
    destruct (Z.eqb_spec (x1 - x2) 0) as [Hx'|Hx']; try lia.
  - cbn. rewrite (Z.max_comm y2 y1), (Z.min_comm y2 y1).
    f_equal. lia.
  - destruct (Z.eqb_spec (y2 - y1) 0) as [Hy|Hy];
      destruct (Z.eqb_spec (y1 - y2) 0) as [Hy'|Hy']; try lia.
    + cbn. rewrite (Z.max_comm x2 x1), (Z.min_comm x2 x1).
      f_equal. lia.
    + cbn. unfold curve_x, curve_y, reversed; cbn [b0 b1 b2 b3].
      rewrite (Z.add_comm (2 * x2) x1), (Z.add_comm x2 (2 * x1)).
      rewrite (Z.add_comm (2 * y2) y1), (Z.add_comm y2 (2 * y1)).
      reflexivity.
Qed.

(** X6. A segment and the same segment taken the other way round are
    emitted as the same line when it is vertical or horizontal, and as the
    same blend with its four coefficients in opposite order when it is a
    curve.  A polygon of exactly two vertices therefore emits its one side
    twice: the same line two times when the side is vertical or
    horizontal, a curve and its reverse otherwise. *)
Theorem X6_two_vertex_polygon_repeats_its_side
    (H x1 y1 x2 y2 : Z) (fr : frame) :
  segment_body H (x2, y2) (x1, y1) fr
  = appended fr (render float_repr
      (reversed_equation (equation_of_segment H ((x1, y1), (x2, y2)))))
  /\ segments_loop H [(x1, y1); (x2, y2)] fr
     = inr (tt, {| lines := lines fr ++
         [render float_repr (equation_of_segment H ((x1, y1), (x2, y2)));
          render float_repr
            (reversed_equation (equation_of_segment H ((x1, y1), (x2, y2))))] |})
  /\ (x1 = x2 \/ y1 = y2 ->
      exists line : string,
        segments_loop H [(x1, y1); (x2, y2)] fr
        = inr (tt, {| lines := lines fr ++ [line; line] |})).
Proof.
  assert (Hloop : segments_loop H [(x1, y1); (x2, y2)] fr
     = inr (tt, {| lines := lines fr ++
         [render float_repr (equation_of_segment H ((x1, y1), (x2, y2)));
          render float_repr
            (reversed_equation (equation_of_segment H ((x1, y1), (x2, y2))))] |})).
  { rewrite segments_loop_spec. unfold segments. cbn [tl firstn app combine map].
    unfold line_of_segment. now rewrite (reversed_segment H (x1, y1) (x2, y2)). }
  split; [|split].
  - rewrite segment_body_spec. unfold appended, line_of_segment.
    now rewrite (reversed_segment H (x1, y1) (x2, y2)).
  - exact Hloop.
  - intros Haxis.
    exists (render float_repr (equation_of_segment H ((x1, y1), (x2, y2)))).
    rewrite Hloop. unfold equation_of_segment.
    destruct (Z.eqb_spec (x2 - x1) 0); [reflexivity|].
    destruct (Z.eqb_spec (y2 - y1) 0); [reflexivity|]. lia.
Qed.

Lemma X6_two_vertex_polygon_repeats_its_side_witness :
  exists line : string,
    segments_loop 10 [(2, 3); (2, 7)] Fixture.empty_frame
    = inr (tt, {| lines := lines Fixture.empty_frame ++ [line; line] |}).
Proof.
  apply (proj2 (proj2 (X6_two_vertex_polygon_repeats_its_side
                         10 2 3 2 7 Fixture.empty_frame))).
  left. reflexivity.
Defined.

(** X7. A segment whose end points lie in the image, columns from 0 on and
    rows between 0 and the height, is emitted as a line whose values lie in
    the band of the image: a vertical line right of the y axis with its range
    inside [0, H], a horizontal line at a height inside [0, H] with its
    range from 0 on. *)
Theorem X7_lines_stay_in_the_image_band (H x1 y1 x2 y2 : Z) (fr : frame) :
  0 <= x1 -> 0 <= x2 -> 0 <= y1 <= H -> 0 <= y2 <= H ->
  exists e : Equation,
    segment_body H (x1, y1) (x2, y2) fr = appended fr (render float_repr e)
    /\ in_band H e /\ well_ranged e.
Proof.
  intros Hx1 Hx2 Hy1 Hy2.
  exists (equation_of_segment H ((x1, y1), (x2, y2))).
  split; [apply segment_body_spec|].
  split; [|apply well_ranged_segment].
  unfold equation_of_segment.
  destruct (Z.eqb_spec (x2 - x1) 0); [cbn; lia|].
  destruct (Z.eqb_spec (y2 - y1) 0); cbn; [lia|exact I].
Qed.

Lemma X7_lines_stay_in_the_image_band_witness :
  exists e : Equation,
    segment_body 10 (2, 3) (8, 3) Fixture.empty_frame
    = appended Fixture.empty_frame (render float_repr e)
    /\ in_band 10 e /\ well_ranged e.
Proof.
  apply (X7_lines_stay_in_the_image_band 10 2 3 8 3 Fixture.empty_frame); lia.
Defined.

Section Pipeline.
Variable ndarray : Type.
Variable shape0 : ndarray -> Z.
Variable cvtColor_BGR2GRAY : ndarray -> ndarray.
Variable GaussianBlur : ndarray -> Z * Z -> Z -> ndarray.
Variable Canny : ndarray -> Z -> Z -> ndarray.
Variable findContours_LIST_SIMPLE : ndarray -> list contour.
Variable arcLength : contour -> bool -> float.
Variable approxPolyDP : contour -> float -> bool -> contour.

Local Abbreviation run :=
  (image_to_equations shape0 cvtColor_BGR2GRAY GaussianBlur Canny
     findContours_LIST_SIMPLE arcLength approxPolyDP).
Local Abbreviation equations :=
  (all_equations shape0 cvtColor_BGR2GRAY GaussianBlur Canny
     findContours_LIST_SIMPLE arcLength approxPolyDP).

Lemma equations_are_of_segments (H : Z) (k : pynum) (cs : list contour)
    (P : Equation -> Prop) :
  (forall s, P (equation_of_segment H s)) ->
  Forall P (equations_of arcLength approxPolyDP H k cs).
Proof.
  intros HP. unfold equations_of. apply Forall_flat_map, Forall_forall.
  intros c _. unfold contour_equations.
  destruct (List.length c <? 2)%nat; [constructor|]. cbv zeta.
  destruct (List.length (approxPolyDP c _ true) <? 2)%nat; [constructor|].
  apply Forall_map, Forall_forall. intros s _. apply HP.
Qed.

(** X5. The text returned for a decoded image is never empty, and
    splitting it at the newlines gives back exactly the emitted lines, one
    per equation and none of them empty: no line holds a newline, and the
    text neither starts nor ends with one.  Without equations the split is
    the fallback line alone. *)
Theorem X5_text_splits_into_its_lines
    (image_bgr : ndarray) (k : pynum) (fr : frame) :
  exists text : string,
    run (Some image_bgr) k fr
    = inr (text, {| lines := map (render float_repr) (equations image_bgr k) |})
    /\ text <> ""%string
    /\ split_at newline_char text
       = match equations image_bgr k with
         | [] => [no_equations_text]
         | _ => map (render float_repr) (equations image_bgr k)
         end
    /\ Forall (fun line => line <> ""%string) (split_at newline_char text).
Proof.
  exists (output_text (map (render float_repr) (equations image_bgr k))).
  split; [apply image_to_equations_spec|].
  assert (Hsplit : split_at newline_char
            (output_text (map (render float_repr) (equations image_bgr k)))
          = match equations image_bgr k with
            | [] => [no_equations_text]
            | _ => map (render float_repr) (equations image_bgr k)
            end).
  { destruct (equations image_bgr k) as [|e es]; [reflexivity|].
    cbn [map]. unfold output_text.
    change newline with (String newline_char EmptyString).
    apply split_at_concat.
    change (render float_repr e :: map (render float_repr) es)
      with (map (render float_repr) (e :: es)).
    apply Forall_map, Forall_forall. intros e' _. apply newline_not_in_render. }
  split; [|split; [exact Hsplit|]].
  - apply output_text_not_empty.
  - rewrite Hsplit. destruct (equations image_bgr k) as [|e es].
    + repeat constructor. discriminate.
    + apply Forall_map, Forall_forall. intros e' _. apply render_not_empty.
Qed.

(** X8. In every equation emitted for an image the range of a vertical
    line is not inverted, [y0 <= y1], and the range of a horizontal line is
    a proper interval, [x0 < x1]. *)
Theorem X8_ranges_are_ordered (image_bgr : ndarray) (k : pynum) :
  Forall well_ranged (equations image_bgr k).
Proof.
  unfold all_equations. apply equations_are_of_segments.
  apply well_ranged_segment.
Qed.

(** X13. The text returned for a decoded image has exactly one line per
    vertex of the polygons that were kept: its number of lines is the sum,
    over the contours found, of the vertex count of each polygon of at
    least two vertices simplified from a contour of at least two points,
    and one line, the fallback, when that sum is zero. *)
Theorem X13_one_line_per_kept_vertex
    (image_bgr : ndarray) (k : pynum) (fr : frame) :
  exists text : string,
    outcome (run (Some image_bgr) k fr) = inr text
    /\ List.length (split_at newline_char text)
       = Nat.max 1
           (list_sum
              (map (polygon_size arcLength approxPolyDP k)
                 (contours_of cvtColor_BGR2GRAY GaussianBlur Canny
                    findContours_LIST_SIMPLE image_bgr))).
Proof.
  exists (output_text (map (render float_repr) (equations image_bgr k))).
  rewrite image_to_equations_spec. split; [reflexivity|].
  assert (Hlen : List.length (equations image_bgr k)
                 = list_sum
                     (map (polygon_size arcLength approxPolyDP k)
                        (contours_of cvtColor_BGR2GRAY GaussianBlur Canny
                           findContours_LIST_SIMPLE image_bgr))).
  { unfold all_equations, equations_of.
    generalize (shape0 image_bgr) as H.
    generalize (contours_of cvtColor_BGR2GRAY GaussianBlur Canny
                  findContours_LIST_SIMPLE image_bgr) as cs.
    intros cs H.
    assert (Hc : forall c,
               List.length (contour_equations arcLength approxPolyDP H k c)
               = polygon_size arcLength approxPolyDP k c).
    { intros c. unfold contour_equations, polygon_size.
      destruct (List.length c <? 2)%nat; [reflexivity|]. cbv zeta.
      destruct (List.length (approxPolyDP c _ true) <? 2)%nat; [reflexivity|].
      rewrite length_map. apply length_segments. }
    induction cs as [|c cs IH]; [reflexivity|].
    cbn [flat_map map list_sum]. now rewrite length_app, IH, Hc. }
  rewrite <- Hlen.
  destruct (equations image_bgr k) as [|e es] eqn:E; [reflexivity|].
  unfold output_text. cbn [map].
  change newline with (String newline_char EmptyString).
  rewrite split_at_concat.
  - cbn [List.length]. rewrite length_map. reflexivity.
  - change (render float_repr e :: map (render float_repr) es)
      with (map (render float_repr) (e :: es)).
    apply Forall_map, Forall_forall. intros e' _. apply newline_not_in_render.
Qed.

End Pipeline.

(** ** The request handler *)

Lemma le_zero_nonpositive (x : float) : le_zero x = true <-> nonpositive x.
Proof.
  destruct x as [s|s| |s m e]; cbn; try (destruct s; cbn); intuition congruence.
Qed.

Section Handler.
Variable ndarray : Type.
Variable shape0 : ndarray -> Z.
Variable cvtColor_BGR2GRAY : ndarray -> ndarray.
Variable GaussianBlur : ndarray -> Z * Z -> Z -> ndarray.
Variable Canny : ndarray -> Z -> Z -> ndarray.
Variable findContours_LIST_SIMPLE : ndarray -> list contour.
Variable arcLength : contour -> bool -> float.
Variable approxPolyDP : contour -> float -> bool -> contour.
Variable float_of_str : string -> option float.
Variable imdecode_COLOR : list Byte.byte -> string + option ndarray.
Variable response : Type.
Variable HTML_PAGE : string.
Variable render_template_string : string -> context -> response.
Variable IndexError_text : string.
Variable approxPolyDP_error : float -> option string.

Local Abbreviation view :=
  (index shape0 cvtColor_BGR2GRAY GaussianBlur Canny findContours_LIST_SIMPLE
     arcLength approxPolyDP float_of_str imdecode_COLOR HTML_PAGE
     render_template_string IndexError_text approxPolyDP_error).
Local Abbreviation upload_outcome :=
  (process_upload shape0 cvtColor_BGR2GRAY GaussianBlur Canny
     findContours_LIST_SIMPLE arcLength approxPolyDP imdecode_COLOR
     IndexError_text approxPolyDP_error).
Local Abbreviation refusal x image_bgr :=
  (first_refusal arcLength approxPolyDP_error x
     (contours_of cvtColor_BGR2GRAY GaussianBlur Canny
        findContours_LIST_SIMPLE image_bgr)).
Local Abbreviation text_of image_bgr x :=
  (output_text
     (all_lines shape0 cvtColor_BGR2GRAY GaussianBlur Canny
        findContours_LIST_SIMPLE arcLength approxPolyDP image_bgr (PyFloat x))).
Local Abbreviation page := (render_template_string HTML_PAGE).

(** What the second [try] block leaves in [equations] and [error]. *)
Lemma process_upload_spec (file : FileStorage) (x : float) (fr : frame) :
  upload_outcome file x fr
  = match imdecode_COLOR (content file) with
    | inl msg => (""%string, (processing_prefix ++ msg)%string)
    | inr None =>
        (""%string, "Error processing image: Could not decode image."%string)
    | inr (Some image_bgr) =>
        match refusal x image_bgr with
        | Some msg => (""%string, (processing_prefix ++ msg)%string)
        | None => (text_of image_bgr x, ""%string)
        end
    end.
Proof.
  unfold process_upload, raised_inside.
  destruct (imdecode_COLOR (content file)) as [msg|[image_bgr|]].
  - reflexivity.
  - destruct (refusal x image_bgr); [reflexivity|].
    now rewrite image_to_equations_spec.
  - reflexivity.
Qed.

(** No contour is refused exactly when [approxPolyDP] accepts the epsilon
    of every contour of 2 points or more. *)
Lemma first_refusal_None (x : float) (cs : list contour) :
  first_refusal arcLength approxPolyDP_error x cs = None
  <-> forall c, In c cs -> (2 <= List.length c)%nat ->
        approxPolyDP_error (fmul x (arcLength c true)) = None.
Proof.
  induction cs as [|c cs IH]; cbn [first_refusal In].
  - split; [intros _ c []|reflexivity].
  - destruct (Nat.ltb_spec (List.length c) 2) as [Hshort|Hlong].
    + rewrite IH. split.
      * intros Hall c' [<-|Hin] Hlen; [exfalso; clear - Hshort Hlen; lia|].
        now apply Hall.
      * intros Hall c' Hin. apply Hall. now right.
    + cbv zeta.
      destruct (approxPolyDP_error (fmul x (arcLength c true))) as [msg|] eqn:E.
      * split; [discriminate|]. intros Hall.
        rewrite (Hall c (or_introl eq_refl) Hlong) in E. discriminate E.
      * rewrite IH. split.
        -- intros Hall c' [<-|Hin] Hlen; [exact E|now apply Hall].
        -- intros Hall c' Hin. apply Hall. now right.
Qed.

Lemma read_inaccuracy_None (s : string) :
  read_inaccuracy float_of_str s = None
  <-> float_of_str s = None
      \/ exists x, float_of_str s = Some x /\ nonpositive x.
Proof.
  unfold read_inaccuracy. destruct (float_of_str s) as [x|].
  - destruct (le_zero x) eqn:E.
    + split; [|reflexivity]. intros _. right. exists x.
      split; [reflexivity|now apply le_zero_nonpositive].
    + split; [discriminate|]. intros [Hn|(y & [= <-] & Hy)]; [discriminate|].
      apply le_zero_nonpositive in Hy. congruence.
  - split; [now left|reflexivity].
Qed.

(** X9. A POST is answered with the invalid-tolerance message exactly when
    the tolerance field does not read as a float or reads as a zero, a
    negative number or minus infinity; a NaN and plus infinity pass the
    check.  The rejected request is answered with no equations and with the
    field echoed as it was sent, whatever files it carries. *)
Theorem X9_tolerance_gate (req : request) (fr : frame) :
  method req = "POST"%string ->
  exists ctx : context,
    view req fr = page ctx
    /\ (error ctx = invalid_inaccuracy_text
        <-> float_of_str (inaccuracy_field req) = None
            \/ exists x, float_of_str (inaccuracy_field req) = Some x
                         /\ nonpositive x)
    /\ (error ctx = invalid_inaccuracy_text ->
        equations ctx = ""%string
        /\ inaccuracy ctx = PStr (inaccuracy_field req)).
Proof.
  intros Hpost. unfold index. rewrite Hpost. cbn [String.eqb Ascii.eqb Bool.eqb].
  fold (inaccuracy_field req). cbv zeta.
  pose proof (read_inaccuracy_None (inaccuracy_field req)) as Hgate.
  destruct (read_inaccuracy float_of_str (inaccuracy_field req)) as [x|].
  - assert (Hpass : ~ (float_of_str (inaccuracy_field req) = None
                       \/ exists y, float_of_str (inaccuracy_field req) = Some y
                                    /\ nonpositive y))
      by (intros Hr; apply Hgate in Hr; discriminate Hr).
    destruct (multidict_get "image" (files req)) as [file|].
    + destruct (negb (truthy file) || filename_is_empty file).
      * eexists. split; [reflexivity|]. cbn [error equations inaccuracy].
        split; [split|]; [discriminate|tauto|discriminate].
      * rewrite process_upload_spec.
        destruct (imdecode_COLOR (content file)) as [msg|[image_bgr|]];
          [|destruct (refusal x image_bgr) as [msg|]|];
          eexists; (split; [reflexivity|]); cbn [error equations inaccuracy];
          (split; [split|]); (discriminate || tauto).
    + eexists. split; [reflexivity|]. cbn [error equations inaccuracy].
      split; [split|]; [discriminate|tauto|discriminate].
  - eexists. split; [reflexivity|]. cbn [error equations inaccuracy].
    split; [split|]; [intros _; now apply Hgate|reflexivity|now split].
Qed.

(** X10. Every answer to a POST carries either an error message or
    equations, never both and never neither: the error is empty exactly
    when the equations are not.  Any other method is answered with the
    empty form: no equations, no error, the tolerance 0.002. *)
Theorem X10_error_or_equations (req : request) (fr : frame) :
  exists ctx : context,
    view req fr = page ctx
    /\ (method req = "POST"%string ->
        (error ctx = ""%string <-> equations ctx <> ""%string))
    /\ (method req <> "POST"%string ->
        ctx = {| equations := ""; error := "";
                 inaccuracy := PNum (PyFloat lit_0_002) |}).
Proof.
  unfold index.
  destruct (String.eqb_spec (method req) "POST") as [Hpost|Hget]; cbv zeta.
  - destruct (read_inaccuracy float_of_str _) as [x|].
    + destruct (multidict_get "image" (files req)) as [file|].
      * destruct (negb (truthy file) || filename_is_empty file).
        -- eexists. split; [reflexivity|]. cbn [error equations inaccuracy].
           split; [intros _; split; [discriminate|congruence]|congruence].
        -- rewrite process_upload_spec.
           destruct (imdecode_COLOR (content file)) as [msg|[image_bgr|]];
             [|destruct (refusal x image_bgr) as [msg|]|];
             eexists; (split; [reflexivity|]); cbn [error equations inaccuracy];
             (split;
              [ intros _;
                (split;
                 [ first [ discriminate
                         | intros _; unfold all_lines;
                           apply output_text_not_empty ]
                 | first [ congruence | intros _; reflexivity ] ])
              | congruence ]).
      * eexists. split; [reflexivity|]. cbn [error equations inaccuracy].
        split; [intros _; split; [discriminate|congruence]|congruence].
    + eexists. split; [reflexivity|]. cbn [error equations inaccuracy].
      split; [intros _; split; [discriminate|congruence]|congruence].
  - eexists. split; [reflexivity|]. split; [congruence|reflexivity].
Qed.

(** X11. A POST whose tolerance passes the check and that carries a file
    with a non-empty name is answered by what the second [try] block
    gives.  Data that is no image is answered with "Error processing
    image: Could not decode image." and no equations; an error raised by
    the decoder, or by [approxPolyDP] for the first contour of 2 points or
    more whose epsilon it refuses, is answered with its text after the same
    prefix and no equations; an image all of whose epsilons are accepted is
    answered with the text of [image_to_equations] for the tolerance read
    and no error.  The tolerance is handed to the page as the float
    read. *)
Theorem X11_upload_outcomes
    (req : request) (fr : frame) (x : float) (file : FileStorage)
    (name : string) :
  method req = "POST"%string ->
  float_of_str (inaccuracy_field req) = Some x -> le_zero x = false ->
  multidict_get "image" (files req) = Some file ->
  filename file = Some name -> name <> ""%string ->
  view req fr
  = match imdecode_COLOR (content file) with
    | inl msg =>
        page {| equations := "";
                error := "Error processing image: " ++ msg;
                inaccuracy := PNum (PyFloat x) |}
    | inr None =>
        page {| equations := "";
                error := "Error processing image: Could not decode image.";
                inaccuracy := PNum (PyFloat x) |}
    | inr (Some image_bgr) =>
        match refusal x image_bgr with
        | Some msg =>
            page {| equations := "";
                    error := "Error processing image: " ++ msg;
                    inaccuracy := PNum (PyFloat x) |}
        | None =>
            page {| equations := text_of image_bgr x; error := "";
                    inaccuracy := PNum (PyFloat x) |}
        end
    end
  /\ (forall image_bgr,
        refusal x image_bgr = None
        <-> forall c,
              In c (contours_of cvtColor_BGR2GRAY GaussianBlur Canny
                      findContours_LIST_SIMPLE image_bgr) ->
              (2 <= List.length c)%nat ->
              approxPolyDP_error (fmul x (arcLength c true)) = None).
Proof.
  intros Hpost Hread Hpos Hfile Hname Hne.
  split; [|intros image_bgr; apply first_refusal_None].
  unfold index. rewrite Hpost. cbn [String.eqb Ascii.eqb Bool.eqb].
  fold (inaccuracy_field req). cbv zeta.
  unfold read_inaccuracy. rewrite Hread, Hpos, Hfile.
  unfold truthy, filename_is_empty. rewrite Hname.
  apply String.eqb_neq in Hne. rewrite Hne. cbn [negb orb].
  rewrite process_upload_spec.
  destruct (imdecode_COLOR (content file)) as [msg|[image_bgr|]];
    [|destruct (refusal x image_bgr)|]; reflexivity.
Qed.

Lemma default_inaccuracy_str : float_repr lit_0_002 = "0.002"%string.
Proof. vm_compute. reflexivity. Qed.

(** X12. A POST without a tolerance field is answered as the same request
    with the field set to "0.002", the text of the default tolerance. *)
Theorem X12_missing_field_reads_as_default (req : request) (fr : frame) :
  multidict_get "inaccuracy" (form req) = None ->
  view req fr
  = view {| method := method req;
            form := ("inaccuracy"%string, "0.002"%string) :: form req;
            files := files req |} fr.
Proof.
  intros Hnone. unfold index. cbn [method form files multidict_get].
  rewrite Hnone, default_inaccuracy_str. reflexivity.
Qed.

End Handler.

Lemma X9_tolerance_gate_witness :
  exists ctx : context,
    WebFixture.index (WebFixture.post "" [("image"%string, WebFixture.upload)])
      Fixture.empty_frame = ctx
    /\ error ctx = invalid_inaccuracy_text
    /\ equations ctx = ""%string.
Proof.
  destruct (X9_tolerance_gate Fixture.ndarray Fixture.shape0
              Fixture.cvtColor_BGR2GRAY Fixture.GaussianBlur Fixture.Canny
              Fixture.findContours_LIST_SIMPLE Fixture.arcLength
              Fixture.approxPolyDP WebFixture.float_of_str
              WebFixture.imdecode_COLOR context "page"%string
              WebFixture.render_template_string "index out of range"%string
              WebFixture.approxPolyDP_error
              (WebFixture.post "" [("image"%string, WebFixture.upload)])
              Fixture.empty_frame eq_refl)
    as (ctx & Hview & Hiff & Hecho).
  assert (Herr : error ctx = invalid_inaccuracy_text)
    by (apply Hiff; left; reflexivity).
  exists ctx. split; [exact Hview|]. split; [exact Herr|].
  exact (proj1 (Hecho Herr)).
Defined.

Lemma X10_error_or_equations_witness :
  exists ctx : context,
    WebFixture.index (WebFixture.post "0.01" [("image"%string, WebFixture.upload)])
      Fixture.empty_frame = ctx
    /\ (error ctx = ""%string <-> equations ctx <> ""%string).
Proof.
  destruct (X10_error_or_equations Fixture.ndarray Fixture.shape0
              Fixture.cvtColor_BGR2GRAY Fixture.GaussianBlur Fixture.Canny
              Fixture.findContours_LIST_SIMPLE Fixture.arcLength
              Fixture.approxPolyDP WebFixture.float_of_str
              WebFixture.imdecode_COLOR context "page"%string
              WebFixture.render_template_string "index out of range"%string
              WebFixture.approxPolyDP_error
              (WebFixture.post "0.01" [("image"%string, WebFixture.upload)])
              Fixture.empty_frame)
    as (ctx & Hview & Hpost & _).
  exists ctx. split; [exact Hview|]. apply Hpost. reflexivity.
Defined.

Lemma X11_upload_outcomes_witness :
  WebFixture.index
    (WebFixture.post "0.01" [("image"%string, WebFixture.upload)])
    Fixture.empty_frame
  = {| equations := "# No contours/equations were detected. Try a clearer or higher-contrast image.";
       error := "";
       inaccuracy := PNum (PyFloat (fdiv (float_of_int 1) (float_of_int 100))) |}
  /\ WebFixture.index
       (WebFixture.post "0.01" [("image"%string, WebFixture.note)])
       Fixture.empty_frame
     = {| equations := "";
          error := "Error processing image: Could not decode image.";
          inaccuracy := PNum (PyFloat (fdiv (float_of_int 1) (float_of_int 100))) |}.
Proof.
  split.
  - unfold WebFixture.index.
    rewrite (proj1 (X11_upload_outcomes Fixture.ndarray Fixture.shape0
               Fixture.cvtColor_BGR2GRAY Fixture.GaussianBlur Fixture.Canny
               Fixture.findContours_LIST_SIMPLE Fixture.arcLength
               Fixture.approxPolyDP WebFixture.float_of_str
               WebFixture.imdecode_COLOR context "page"%string
               WebFixture.render_template_string "index out of range"%string
               WebFixture.approxPolyDP_error
               (WebFixture.post "0.01" [("image"%string, WebFixture.upload)])
               Fixture.empty_frame
               (fdiv (float_of_int 1) (float_of_int 100)) WebFixture.upload
               "drawing.png"%string eq_refl eq_refl eq_refl eq_refl eq_refl
               ltac:(discriminate))).
    reflexivity.
  - unfold WebFixture.index.
    rewrite (proj1 (X11_upload_outcomes Fixture.ndarray Fixture.shape0
               Fixture.cvtColor_BGR2GRAY Fixture.GaussianBlur Fixture.Canny
               Fixture.findContours_LIST_SIMPLE Fixture.arcLength
               Fixture.approxPolyDP WebFixture.float_of_str
               WebFixture.imdecode_COLOR context "page"%string
               WebFixture.render_template_string "index out of range"%string
               WebFixture.approxPolyDP_error
               (WebFixture.post "0.01" [("image"%string, WebFixture.note)])
               Fixture.empty_frame
               (fdiv (float_of_int 1) (float_of_int 100)) WebFixture.note
               "note.txt"%string eq_refl eq_refl eq_refl eq_refl eq_refl
               ltac:(discriminate))).
    reflexivity.
Defined.

Lemma X12_missing_field_reads_as_default_witness :
  WebFixture.index {| method := "POST"; form := [];
                      files := [("image"%string, WebFixture.upload)] |}
    Fixture.empty_frame
  = WebFixture.index (WebFixture.post "0.002" [("image"%string, WebFixture.upload)])
      Fixture.empty_frame.
Proof.
  apply (X12_missing_field_reads_as_default Fixture.ndarray Fixture.shape0
           Fixture.cvtColor_BGR2GRAY Fixture.GaussianBlur Fixture.Canny
           Fixture.findContours_LIST_SIMPLE Fixture.arcLength
           Fixture.approxPolyDP WebFixture.float_of_str
           WebFixture.imdecode_COLOR context "page"%string
           WebFixture.render_template_string "index out of range"%string
           WebFixture.approxPolyDP_error
           {| method := "POST"; form := [];
              files := [("image"%string, WebFixture.upload)] |}
           Fixture.empty_frame).
  reflexivity.
Defined.

End Coverage.
